(** * The ASG DNS handler ([lambda/autoscale/autoscale.py])

    A shallow embedding of the Lambda handler that keeps Route53 records
    in step with Auto Scaling Group lifecycle notifications, and the
    properties of it that the specification states.

    Python values are untyped, so the embedding works over a small
    universe of Python values ([pyval]); the three boto3 clients and
    [json.loads] are outside the program and are taken as parameters
    (Section variables): every theorem holds for all of them.  Each
    function threads the sequence of observable events (log records and
    client calls) and may end in an exception, as the source does. *)

From Stdlib Require Import ZArith String Ascii List Bool Lia DecimalString.
From stdpp Require Import base option list gmap strings.

Local Open Scope string_scope.
Local Open Scope Z_scope.
Local Open Scope list_scope.
Set Warnings "-register-all".

(** ** Python values *)

(** What [json.loads] and the boto3 clients hand to the program: [None],
    booleans, integers, strings (sequences of code points below 256),
    lists, and dictionaries with string keys; floating-point numbers,
    with which the program does nothing, are left out.  A dictionary is
    kept as its items in insertion order; its keys are pairwise
    distinct in Python, and a lookup here takes the first item with the
    key. *)
Inductive pyval : Type :=
  | PNone : pyval
  | PBool (b : bool) : pyval
  | PInt (z : Z) : pyval
  | PStr (s : string) : pyval
  | PList (l : list pyval) : pyval
  | PDict (d : list (string * pyval)) : pyval.

(** The exceptions the program can end in.  [OtherError] stands for the
    ones raised by the collaborators (botocore's ClientError,
    json.JSONDecodeError, ...). *)
Inductive exn : Type :=
  | KeyError (key : pyval) : exn
  | IndexError : exn
  | ValueError : exn
  | TypeError : exn
  | AttributeError : exn
  | UnboundLocalError (name : string) : exn
  | SystemExit (code : Z) : exn
  | OtherError (name : string) : exn.

Inductive result (A : Type) : Type :=
  | Ok (a : A) : result A
  | Raise (e : exn) : result A.
Arguments Ok {A} a.
Arguments Raise {A} e.

(** ** String primitives of Python used by the program *)

Module PyString.

(** [sub in s] for strings. *)
Fixpoint contains (sub s : string) : bool :=
  String.prefix sub s
  || match s with
     | EmptyString => false
     | String _ s' => contains sub s'
     end.

(** Scan of [s.replace(old, new)] for a non-empty [old]: left to
    right, every occurrence that does not overlap an earlier one.
    [skip] counts the characters of a matched occurrence that are
    still to be dropped. *)
Fixpoint replace_go (old new : string) (skip : nat) (s : string) : string :=
  match s with
  | EmptyString => EmptyString
  | String c s' =>
      match skip with
      | S k => replace_go old new k s'
      | O =>
          if String.prefix old s
          then new +:+ replace_go old new (String.length old - 1) s'
          else String c (replace_go old new 0 s')
      end
  end.

(** With an empty [old], Python puts [new] before every character and
    at the end. *)
Fixpoint intersperse (new s : string) : string :=
  match s with
  | EmptyString => new
  | String c s' => new +:+ String c (intersperse new s')
  end.

(** [s.replace(old, new)] *)
Definition replace (old new s : string) : string :=
  match old with
  | EmptyString => intersperse new s
  | String _ _ => replace_go old new 0 s
  end.

(** Scan of [s.split(sep)] for a non-empty [sep]: the piece being
    read and the pieces after it. *)
Fixpoint split_go (sep : string) (skip : nat) (s : string) : string * list string :=
  match s with
  | EmptyString => (EmptyString, [])
  | String c s' =>
      match skip with
      | S k => split_go sep k s'
      | O =>
          if String.prefix sep s
          then let '(p, ps) := split_go sep (String.length sep - 1) s' in
               (EmptyString, p :: ps)
          else let '(p, ps) := split_go sep 0 s' in
               (String c p, ps)
      end
  end.

(** [s.split(sep)]; Python raises ValueError on an empty separator. *)
Definition split (sep s : string) : result (list string) :=
  match sep with
  | EmptyString => Raise ValueError
  | String _ _ => let '(p, ps) := split_go sep 0 s in Ok (p :: ps)
  end.

(** [s.index(sub)]: the lowest position at which [sub] occurs. *)
Fixpoint find (sub s : string) : option nat :=
  if String.prefix sub s then Some O
  else match s with
       | EmptyString => None
       | String _ s' => S <$> find sub s'
       end.

(** [str(n)] for an integer. *)
Definition of_Z (z : Z) : string := NilZero.string_of_int (Z.to_int z).

End PyString.

(** ** Operations on Python values *)

(** [d[key]] on the items of a dictionary. *)
Fixpoint dict_get (key : string) (d : list (string * pyval)) : option pyval :=
  match d with
  | [] => None
  | (k, v) :: d' => if String.eqb k key then Some v else dict_get key d'
  end.

(** The integer a boolean or an integer stands for in a comparison
    ([True == 1] holds in Python). *)
Definition as_number (v : pyval) : option Z :=
  match v with
  | PBool b => Some (Z.b2z b)
  | PInt z => Some z
  | _ => None
  end.

(** [a == b].  Lists compare element by element; dictionaries compare
    as mappings, whatever the order of their items. *)
Fixpoint py_eq (a b : pyval) : bool :=
  match a with
  | PNone => match b with PNone => true | _ => false end
  | PBool x =>
      match as_number b with Some z => Z.eqb (Z.b2z x) z | None => false end
  | PInt x =>
      match as_number b with Some z => Z.eqb x z | None => false end
  | PStr s => match b with PStr t => String.eqb s t | _ => false end
  | PList l =>
      match b with
      | PList l' =>
          (fix all2 (l l' : list pyval) {struct l} : bool :=
             match l, l' with
             | [], [] => true
             | x :: xs, y :: ys => py_eq x y && all2 xs ys
             | _, _ => false
             end) l l'
      | _ => false
      end
  | PDict d =>
      match b with
      | PDict d' =>
          Nat.eqb (length d) (length d')
          && (fix all (d : list (string * pyval)) {struct d} : bool :=
                match d with
                | [] => true
                | (k, v) :: r =>
                    match dict_get k d' with
                    | Some v' => py_eq v v' && all r
                    | None => false
                    end
                end) d
      | _ => false
      end
  end.

(** [v[key]] with a string key. *)
Definition getitem (v : pyval) (key : string) : result pyval :=
  match v with
  | PDict d =>
      match dict_get key d with
      | Some x => Ok x
      | None => Raise (KeyError (PStr key))
      end
  | _ => Raise TypeError
  end.

(** [v[0]]. *)
Definition getitem0 (v : pyval) : result pyval :=
  match v with
  | PList [] => Raise IndexError
  | PList (x :: _) => Ok x
  | PStr EmptyString => Raise IndexError
  | PStr (String c _) => Ok (PStr (String c EmptyString))
  | PDict _ => Raise (KeyError (PInt 0))
  | _ => Raise TypeError
  end.

(** [key in v] with a string key. *)
Definition py_in (key : string) (v : pyval) : result bool :=
  match v with
  | PDict d => Ok (bool_decide (is_Some (dict_get key d)))
  | PList l => Ok (existsb (py_eq (PStr key)) l)
  | PStr s => Ok (PyString.contains key s)
  | _ => Raise TypeError
  end.

(** [v == s] against a string literal. *)
Definition eq_str (v : pyval) (s : string) : bool := py_eq v (PStr s).

(** [for x in v]: the values the loop variable takes. *)
Definition py_iter (v : pyval) : result (list pyval) :=
  match v with
  | PList l => Ok l
  | PDict d => Ok (map (fun kv => PStr (fst kv)) d)
  | PStr s => Ok (map (fun c => PStr (String c EmptyString)) (list_ascii_of_string s))
  | _ => Raise TypeError
  end.

(** [v.index(x)]: lists look for the first element equal to [x],
    strings for the first occurrence of the substring [x]. *)
Definition py_index (v x : pyval) : result Z :=
  match v with
  | PList l =>
      match list_find (fun y => py_eq y x = true) l with
      | Some (i, _) => Ok (Z.of_nat i)
      | None => Raise ValueError
      end
  | PStr s =>
      match x with
      | PStr sub =>
          match PyString.find sub s with
          | Some i => Ok (Z.of_nat i)
          | None => Raise ValueError
          end
      | _ => Raise TypeError
      end
  | _ => Raise AttributeError
  end.

(** ** [str] and [repr] *)

Module PyRepr.

Definition hex_digit (n : N) : ascii :=
  ascii_of_N (if (n <? 10)%N then 48 + n else 87 + n)%N.

(** [\xNN] *)
Definition hex_escape (c : ascii) : string :=
  let n := N_of_ascii c in
  String "\" (String "x" (String (hex_digit (n / 16)) (String (hex_digit (n mod 16)) EmptyString))).

(** Code points below 256 that [repr] writes as an escape: the
    control characters, DEL, U+0080 to U+00A0 and the soft hyphen. *)
Definition unprintable (c : ascii) : bool :=
  let n := N_of_ascii c in
  ((n <? 32) || ((127 <=? n) && (n <=? 160)) || (n =? 173))%N.

Definition escape_char (quote c : ascii) : string :=
  if Ascii.eqb c quote || Ascii.eqb c "\" then String "\" (String c EmptyString)
  else if Ascii.eqb c "009" then "\t"
  else if Ascii.eqb c "010" then "\n"
  else if Ascii.eqb c "013" then "\r"
  else if unprintable c then hex_escape c
  else String c EmptyString.

Fixpoint escape (quote : ascii) (s : string) : string :=
  match s with
  | EmptyString => EmptyString
  | String c s' => escape_char quote c +:+ escape quote s'
  end.

Definition has_char (c : ascii) (s : string) : bool :=
  existsb (Ascii.eqb c) (list_ascii_of_string s).

(** [repr(s)] for a string: double quotes only when the string has a
    single quote and no double quote. *)
Definition repr_str (s : string) : string :=
  let quote : ascii :=
    if has_char "'" s && negb (has_char "034" s) then "034"%char else "'"%char in
  String quote (escape quote s +:+ String quote EmptyString).

Fixpoint join (sep : string) (l : list string) : string :=
  match l with
  | [] => EmptyString
  | [x] => x
  | x :: r => x +:+ sep +:+ join sep r
  end.

(** [repr(v)] *)
Fixpoint repr (v : pyval) : string :=
  match v with
  | PNone => "None"
  | PBool true => "True"
  | PBool false => "False"
  | PInt z => PyString.of_Z z
  | PStr s => repr_str s
  | PList l => "[" +:+ join ", " (map repr l) +:+ "]"
  | PDict d =>
      "{" +:+ join ", " (map (fun kv => repr_str (fst kv) +:+ ": " +:+ repr (snd kv)) d) +:+ "}"
  end.

(** [str(v)] *)
Definition str (v : pyval) : string :=
  match v with
  | PStr s => s
  | _ => repr v
  end.

End PyRepr.

(** ** Observable events and the monad of the program *)

Inductive level : Type := INFO | ERROR.

(** A log record (level, format string, arguments) or a call of a boto3
    client method with its keyword arguments. *)
Inductive event : Type :=
  | Log (lvl : level) (msg : string) (args : list pyval) : event
  | Call (client method : string) (kwargs : list (string * pyval)) : event.

(** Events in the order they happen. *)
Definition trace : Type := list event.

(** A computation reads and extends the trace, and ends with a value or
    an exception. *)
Definition M (A : Type) : Type := trace -> result A * trace.

Definition ret {A} (a : A) : M A := fun t => (Ok a, t).

Definition raise {A} (e : exn) : M A := fun t => (Raise e, t).

Definition bind {A B} (m : M A) (k : A -> M B) : M B :=
  fun t =>
    match m t with
    | (Ok a, t') => k a t'
    | (Raise e, t') => (Raise e, t')
    end.

Definition lift {A} (r : result A) : M A := fun t => (r, t).

Declare Scope py_scope.
Delimit Scope py_scope with py.
Notation "x <- c ;; k" := (bind c (fun x => k))
  (at level 100, c at next level, right associativity) : py_scope.
Notation "c ;; k" := (bind c (fun _ => k))
  (at level 100, right associativity) : py_scope.
Local Open Scope py_scope.

(** [logger.info] and [logger.error]; the logger's level is INFO, so
    both are emitted. *)
Definition log (lvl : level) (msg : string) (args : list pyval) : M unit :=
  fun t => (Ok tt, t ++ [Log lvl msg args]).

(** Reading a local variable that may not have been assigned. *)
Definition read_local {A} (name : string) (v : option A) : M A :=
  match v with
  | Some a => ret a
  | None => raise (UnboundLocalError name)
  end.

Definition HOSTNAME_TAG_NAME : string := "asg:hostname_pattern".
Definition LIFECYCLE_KEY : string := "LifecycleHookName".
Definition ASG_KEY : string := "AutoScalingGroupName".

(** ** The program *)

Section Handler.

(** The boto3 clients: the response (or the exception) of a client
    method, given everything that happened before the call. *)
Variable aws : trace -> string -> string -> list (string * pyval) -> result pyval.

(** [json.loads] and [json.dumps] on strings and values. *)
Variable json_loads : string -> result pyval.
Variable json_dumps : pyval -> string.

(** [os.environ] *)
Variable environ : gmap string string.

(** A call of [method] on [client] with keyword arguments. *)
Definition call (client method : string) (kwargs : list (string * pyval)) : M pyval :=
  fun t => (aws t client method kwargs, t ++ [Call client method kwargs]).

(** [json.loads(v)]: a value that is not a string is a TypeError. *)
Definition loads (v : pyval) : M pyval :=
  match v with
  | PStr s => lift (json_loads s)
  | _ => raise TypeError
  end.

(** ['use_public_ip' in os.environ and os.environ['use_public_ip'] == "true"] *)
Definition use_public_ip : bool :=
  bool_decide (is_Some (environ !! "use_public_ip"))
  && match environ !! "use_public_ip" with
     | Some v => String.eqb v "true"
     | None => false
     end.

(** [ec2_response['Reservations'][0]['Instances'][0][key]] *)
Definition first_instance_field (ec2_response : pyval) (key : string) : M pyval :=
  reservations <- lift (getitem ec2_response "Reservations") ;;
  reservation <- lift (getitem0 reservations) ;;
  instances <- lift (getitem reservation "Instances") ;;
  instance <- lift (getitem0 instances) ;;
  lift (getitem instance key).

Definition fetch_ip_from_ec2 (instance_id : pyval) : M pyval :=
  log INFO "Fetching IP for instance-id: %s" [instance_id] ;;
  ec2_response <- call "ec2" "describe_instances" [("InstanceIds", PList [instance_id])] ;;
  if use_public_ip then
    ip_address <- first_instance_field ec2_response "PublicIpAddress" ;;
    log INFO "Found public IP for instance-id %s: %s" [instance_id; ip_address] ;;
    ret ip_address
  else
    ip_address <- first_instance_field ec2_response "PrivateIpAddress" ;;
    log INFO "Found private IP for instance-id %s: %s" [instance_id; ip_address] ;;
    ret ip_address.

Definition fetch_ip_from_route53 (hostname zone_id : string) : M pyval :=
  log INFO "Fetching IP for hostname: %s" [PStr hostname] ;;
  response <- call "route53" "list_resource_record_sets"
                [("HostedZoneId", PStr zone_id);
                 ("StartRecordName", PStr hostname);
                 ("StartRecordType", PStr "A");
                 ("MaxItems", PStr "1")] ;;
  record_sets <- lift (getitem response "ResourceRecordSets") ;;
  record_set <- lift (getitem0 record_sets) ;;
  records <- lift (getitem record_set "ResourceRecords") ;;
  record <- lift (getitem0 records) ;;
  ip_address <- lift (getitem record "Value") ;;
  log INFO "Found IP for hostname %s: %s" [PStr hostname; ip_address] ;;
  ret ip_address.

(** [tag_value.split("@")]: only strings have the method. *)
Definition split_at (tag_value : pyval) : M (list string) :=
  match tag_value with
  | PStr s => lift (PyString.split "@" s)
  | _ => raise AttributeError
  end.

Definition fetch_tag_metadata (asg_name : pyval) : M (list string) :=
  log INFO "Fetching tags for ASG: %s" [asg_name] ;;
  response <- call "autoscaling" "describe_tags"
                [("Filters",
                  PList [PDict [("Name", PStr "auto-scaling-group"); ("Values", PList [asg_name])];
                         PDict [("Name", PStr "key"); ("Values", PList [PStr HOSTNAME_TAG_NAME])]]);
                 ("MaxRecords", PInt 1)] ;;
  tags <- lift (getitem response "Tags") ;;
  tag <- lift (getitem0 tags) ;;
  tag_value <- lift (getitem tag "Value") ;;
  log INFO "Found tags for ASG %s: %s" [asg_name; tag_value] ;;
  split_at tag_value.

Definition possible_tags : list string := ["instanceid"; "instance-count"; "instance-index"].

(** [autoscaling.describe_auto_scaling_groups(AutoScalingGroupNames=[asg_name])['AutoScalingGroups'][0][key]] *)
Definition first_group_field (asg_name : pyval) (key : string) : M pyval :=
  response <- call "autoscaling" "describe_auto_scaling_groups"
                [("AutoScalingGroupNames", PList [asg_name])] ;;
  groups <- lift (getitem response "AutoScalingGroups") ;;
  group <- lift (getitem0 groups) ;;
  lift (getitem group key).

(** [hostname_pattern.replace('#instanceid', instance_id)]: the
    replacement has to be a string. *)
Definition replace_instanceid (hostname_pattern : string) (instance_id : pyval) : M string :=
  match instance_id with
  | PStr s => ret (PyString.replace "#instanceid" s hostname_pattern)
  | _ => raise TypeError
  end.

Definition build_hostname (hostname_pattern : string) (instance_id asg_name : pyval) : M string :=
  (if negb (existsb (fun tag => PyString.contains tag hostname_pattern) possible_tags) then
     log ERROR "Hostname pattern must contain one of the following tags: %s"
       [PList (map PStr possible_tags)] ;;
     raise (SystemExit 1)
   else ret tt) ;;
  if PyString.contains "instance-count" hostname_pattern then
    instance_count <- first_group_field asg_name "DesiredCapacity" ;;
    ret (PyString.replace "#instance-count" (PyRepr.str instance_count) hostname_pattern)
  else if PyString.contains "instance-index" hostname_pattern then
    instances <- first_group_field asg_name "Instances" ;;
    instance_index <- lift (py_index instances instance_id) ;;
    ret (PyString.replace "#instance-index" (PyString.of_Z instance_index) hostname_pattern)
  else
    replace_instanceid hostname_pattern instance_id.

Definition update_name_tag (instance_id : pyval) (hostname : string) : M unit :=
  pieces <- lift (PyString.split "." hostname) ;;
  tag_name <- lift (getitem0 (PList (map PStr pieces))) ;;
  log INFO "Updating name tag for instance-id %s with: %s" [instance_id; tag_name] ;;
  call "ec2" "create_tags"
    [("Resources", PList [instance_id]);
     ("Tags", PList [PDict [("Key", PStr "Name"); ("Value", tag_name)]])] ;;
  ret tt.

Definition update_record (zone_id : string) (ip : pyval) (hostname operation : string) : M unit :=
  log INFO "Changing record with %s for %s -> %s in %s"
    [PStr operation; PStr hostname; ip; PStr zone_id] ;;
  call "route53" "change_resource_record_sets"
    [("HostedZoneId", PStr zone_id);
     ("ChangeBatch",
      PDict [("Changes",
              PList [PDict [("Action", PStr operation);
                            ("ResourceRecordSet",
                             PDict [("Name", PStr hostname);
                                    ("Type", PStr "A");
                                    ("TTL", PInt 3);
                                    ("ResourceRecords", PList [PDict [("Value", ip)]])])]])])] ;;
  ret tt.

Definition LAUNCHING : string := "autoscaling:EC2_INSTANCE_LAUNCHING".
Definition TERMINATING : string := "autoscaling:EC2_INSTANCE_TERMINATING".
Definition LAUNCH_ERROR : string := "autoscaling:EC2_INSTANCE_LAUNCH_ERROR".

(** The [if]/[elif]/[else] of [process_message] that assigns the
    local variable [operation]; [None] is the variable left
    unassigned. *)
Definition select_operation (message : pyval) : M (option string) :=
  t1 <- lift (getitem message "LifecycleTransition") ;;
  if eq_str t1 LAUNCHING then ret (Some "UPSERT")
  else
    t2 <- lift (getitem message "LifecycleTransition") ;;
    terminating_or_error <-
      (if eq_str t2 TERMINATING then ret true
       else t3 <- lift (getitem message "LifecycleTransition") ;;
            ret (eq_str t3 LAUNCH_ERROR)) ;;
    if (terminating_or_error : bool) then ret (Some "DELETE")
    else
      t4 <- lift (getitem message "LifecycleTransition") ;;
      log ERROR "Encountered unknown event type: %s" [t4] ;;
      ret None.

(** [hostname_pattern, zone_id = ...]: the right-hand side has to
    have exactly two elements. *)
Definition unpack2 (l : list string) : M (string * string) :=
  match l with
  | [a; b] => ret (a, b)
  | _ => raise ValueError
  end.

Definition process_message (message : pyval) : M unit :=
  has_transition <- lift (py_in "LifecycleTransition" message) ;;
  if negb has_transition then
    ev <- lift (getitem message "Event") ;;
    log INFO "Processing %s event" [ev] ;;
    ret tt
  else
    transition <- lift (getitem message "LifecycleTransition") ;;
    log INFO "Processing %s event" [transition] ;;
    operation <- select_operation message ;;
    asg_name <- lift (getitem message "AutoScalingGroupName") ;;
    instance_id <- lift (getitem message "EC2InstanceId") ;;
    metadata <- fetch_tag_metadata asg_name ;;
    pattern_zone <- unpack2 metadata ;;
    let hostname_pattern := fst pattern_zone in
    let zone_id := snd pattern_zone in
    hostname <- build_hostname hostname_pattern instance_id asg_name ;;
    op <- read_local "operation" operation ;;
    ip <- (if String.eqb op "UPSERT" then
             ip <- fetch_ip_from_ec2 instance_id ;;
             update_name_tag instance_id hostname ;;
             ret ip
           else
             fetch_ip_from_route53 hostname zone_id) ;;
    op' <- read_local "operation" operation ;;
    update_record zone_id ip hostname op'.

(** [record['Sns']['Message']] *)
Definition sns_message (record : pyval) : M pyval :=
  sns <- lift (getitem record "Sns") ;;
  lift (getitem sns "Message").

Definition process_record (record : pyval) : M unit :=
  payload <- sns_message record ;;
  message <- loads payload ;;
  process_message message.

(** The [for record in ...] loop of [lambda_handler]; the result is
    the loop variable [record] after the loop, unassigned when the
    loop body never ran. *)
Fixpoint for_records (items : list pyval) (record : option pyval) : M (option pyval) :=
  match items with
  | [] => ret record
  | r :: rest => process_record r ;; for_records rest (Some r)
  end.

(** The end of [lambda_handler], from the log line "Finishing ASG
    action" on; [record] is the loop variable. *)
Definition finish_asg_action (record : option pyval) : M unit :=
  log INFO "Finishing ASG action" [] ;;
  last_record <- read_local "record" record ;;
  payload <- sns_message last_record ;;
  message <- loads payload ;;
  has_hook <- lift (py_in LIFECYCLE_KEY message) ;;
  has_both <- (if (has_hook : bool) then lift (py_in ASG_KEY message) else ret false) ;;
  if (has_both : bool) then
    hook <- lift (getitem message "LifecycleHookName") ;;
    asg <- lift (getitem message "AutoScalingGroupName") ;;
    instance_id <- lift (getitem message "EC2InstanceId") ;;
    token <- lift (getitem message "LifecycleActionToken") ;;
    response <- call "autoscaling" "complete_lifecycle_action"
                  [("LifecycleHookName", hook);
                   ("AutoScalingGroupName", asg);
                   ("InstanceId", instance_id);
                   ("LifecycleActionToken", token);
                   ("LifecycleActionResult", PStr "CONTINUE")] ;;
    log INFO "ASG action complete: %s" [response]
  else
    log ERROR "No valid JSON message" [].

Definition lambda_handler (event context : pyval) : M unit :=
  log INFO ("Processing SNS event: " +:+ json_dumps event) [] ;;
  records <- lift (getitem event "Records") ;;
  items <- lift (py_iter records) ;;
  record <- for_records items None ;;
  finish_asg_action record.

End Handler.

Arguments call aws client method kwargs t /.

(** ** Reading traces *)

(** Is the event a call of one of the [methods]?  (No two clients of
    the program share a method name.) *)
Definition is_call_of (methods : list string) (e : event) : bool :=
  match e with
  | Call _ m _ => existsb (String.eqb m) methods
  | Log _ _ _ => false
  end.

(** The calls of [methods] among some events, in order. *)
Definition calls_of (methods : list string) (evs : list event) : list event :=
  List.filter (is_call_of methods) evs.

(** [kwargs['ChangeBatch']['Changes'][0]['Action']]: the action of a
    call of [change_resource_record_sets]. *)
Definition change_action (e : event) : result pyval :=
  match e with
  | Call _ _ kwargs =>
      match getitem (PDict kwargs) "ChangeBatch" with
      | Ok change_batch =>
          match getitem change_batch "Changes" with
          | Ok changes =>
              match getitem0 changes with
              | Ok change => getitem change "Action"
              | Raise e => Raise e
              end
          | Raise e => Raise e
          end
      | Raise e => Raise e
      end
  | Log _ _ _ => Raise TypeError
  end.

(** The actions of the DNS changes among some events, in order. *)
Definition dns_actions (evs : list event) : list (result pyval) :=
  map change_action (calls_of ["change_resource_record_sets"] evs).

(** ** A specification of computations by what they add to the trace *)

(** [post c Q]: from every trace, [c] only appends events, and its
    outcome and the events it appends satisfy [Q]. *)
Definition post {A} (c : M A) (Q : result A -> list event -> Prop) : Prop :=
  forall t, exists r evs, c t = (r, t ++ evs) /\ Q r evs.

(** [quiet methods c]: [c] calls none of the [methods]. *)
Definition quiet (methods : list string) {A} (c : M A) : Prop :=
  post c (fun _ evs => calls_of methods evs = []).

(** A postcondition that a prefix without calls of [methods] cannot
    break: it holds when the prefix raises, and it is kept when such
    events are put in front. *)
Definition prefix_stable (methods : list string) {A}
    (Q : result A -> list event -> Prop) : Prop :=
  (forall e evs, calls_of methods evs = [] -> Q (Raise e) evs)
  /\ (forall r evs1 evs2, calls_of methods evs1 = [] -> Q r evs2 -> Q r (evs1 ++ evs2)).

(** ** A concrete deployment, for examples *)

Module Demo.

(** The state of the three services: the hostname tag of the group,
    its desired capacity and instance list, the addresses of the
    instance, and the address in the DNS record. *)
Record world : Type := {
  tags : list pyval;
  desired_capacity : pyval;
  instances : pyval;
  instance : list (string * pyval);
  record_sets : list pyval
}.

(** Clients that answer from a fixed [world], whatever happened
    before; an unknown method is a client error. *)
Definition aws (w : world) (_ : trace) (client method : string)
    (kwargs : list (string * pyval)) : result pyval :=
  if String.eqb method "describe_tags" then
    Ok (PDict [("Tags", PList (tags w))])
  else if String.eqb method "describe_auto_scaling_groups" then
    Ok (PDict [("AutoScalingGroups",
                PList [PDict [("DesiredCapacity", desired_capacity w);
                              ("Instances", instances w)]])])
  else if String.eqb method "describe_instances" then
    Ok (PDict [("Reservations", PList [PDict [("Instances", PList [PDict (instance w)])]])])
  else if String.eqb method "list_resource_record_sets" then
    Ok (PDict [("ResourceRecordSets", PList (record_sets w))])
  else if String.eqb method "create_tags" then Ok (PDict [])
  else if String.eqb method "change_resource_record_sets" then Ok (PDict [])
  else if String.eqb method "complete_lifecycle_action" then Ok (PDict [])
  else Raise (OtherError "ClientError").

Definition tag (value : string) : pyval :=
  PDict [("Key", PStr HOSTNAME_TAG_NAME); ("Value", PStr value)].

Definition a_record (name ip : string) : pyval :=
  PDict [("Name", PStr name); ("Type", PStr "A");
         ("ResourceRecords", PList [PDict [("Value", PStr ip)]])].

(** The group of the specification's scenarios, with the hostname
    pattern given. *)
Definition asg1 (hostname_pattern : string) : world :=
  {| tags := [tag (hostname_pattern +:+ "@ZONE1")];
     desired_capacity := PInt 3;
     instances := PList [PStr "i-0"; PStr "i-1"; PStr "i-2"];
     instance := [("PrivateIpAddress", PStr "10.0.0.5"); ("PublicIpAddress", PStr "54.0.0.5")];
     record_sets := [a_record "web-i-1.example.com." "10.0.0.5"] |}.

(** The same group without its hostname tag. *)
Definition untagged : world :=
  {| tags := [];
     desired_capacity := PInt 3;
     instances := PList [PStr "i-0"; PStr "i-1"; PStr "i-2"];
     instance := [("PrivateIpAddress", PStr "10.0.0.5"); ("PublicIpAddress", PStr "54.0.0.5")];
     record_sets := [] |}.

(** A decoder that knows the given payloads only. *)
Definition json_loads (known : list (string * pyval)) (s : string) : result pyval :=
  match dict_get s known with
  | Some v => Ok v
  | None => Raise (OtherError "JSONDecodeError")
  end.

Definition json_dumps (_ : pyval) : string := "{...}".

Definition launching : list (string * pyval) :=
  [("LifecycleTransition", PStr "autoscaling:EC2_INSTANCE_LAUNCHING");
   ("AutoScalingGroupName", PStr "asg1");
   ("EC2InstanceId", PStr "i-1");
   ("LifecycleHookName", PStr "hook");
   ("LifecycleActionToken", PStr "token")].

Definition terminating : list (string * pyval) :=
  [("LifecycleTransition", PStr "autoscaling:EC2_INSTANCE_TERMINATING");
   ("AutoScalingGroupName", PStr "asg1");
   ("EC2InstanceId", PStr "i-1");
   ("LifecycleHookName", PStr "hook");
   ("LifecycleActionToken", PStr "token")].

(** A transition the program does not know. *)
Definition rebooting : list (string * pyval) :=
  [("LifecycleTransition", PStr "autoscaling:EC2_INSTANCE_REBOOT");
   ("AutoScalingGroupName", PStr "asg1");
   ("EC2InstanceId", PStr "i-1")].

Definition test_notification : list (string * pyval) :=
  [("Event", PStr "autoscaling:TEST_NOTIFICATION")].

(** A notification that carries a hook name and a group name, and
    neither an instance id nor an action token. *)
Definition hook_notification : list (string * pyval) :=
  [("Event", PStr "autoscaling:TEST_NOTIFICATION");
   ("LifecycleHookName", PStr "hook");
   ("AutoScalingGroupName", PStr "asg1")].

(** Payload strings and what they decode to. *)
Definition payloads : list (string * pyval) :=
  [("launching", PDict launching);
   ("terminating", PDict terminating);
   ("test", PDict test_notification);
   ("hook", PDict hook_notification);
   ("empty", PDict [])].

Definition sns_record (payload : string) : pyval :=
  PDict [("Sns", PDict [("Message", PStr payload)])].

Definition batch (records : list pyval) : pyval := PDict [("Records", PList records)].

End Demo.

(** ** The statements of the specification *)

(** [replaced old new s s']: [s'] is [s] with every occurrence of
    [old] replaced by [new] and every other character kept, the
    occurrences being read from left to right, each after the end of
    the one before. *)
Inductive replaced (old new : string) : string -> string -> Prop :=
  | replaced_none (s : string) :
      PyString.contains old s = false ->
      replaced old new s s
  | replaced_first (pre post post' : string) :
      PyString.find old (pre +:+ old +:+ post) = Some (String.length pre) ->
      replaced old new post post' ->
      replaced old new (pre +:+ old +:+ post) (pre +:+ new +:+ post').

(** One DNS change, with action [op], or none and an exception. *)
Definition one_change (op : string) (r : result unit) (evs : list event) : Prop :=
  dns_actions evs = [Ok (PStr op)] \/ (dns_actions evs = [] /\ exists e, r = Raise e).

(** [process_message] selects the DNS operation [op] for a message: the
    local variable [operation] is assigned [op], and a run makes either
    one DNS change, with action [op], or none because it raised
    before. *)
Definition selects aws environ (message : pyval) (op : string) : Prop :=
  forall t : trace,
    select_operation message t = (Ok (Some op), t)
    /\ exists r evs,
         process_message aws environ message t = (r, t ++ evs) /\ one_change op r evs.

(** [r] is a value, not an exception. *)
Definition succeeds {A} (r : result A) : Prop := exists a, r = Ok a.

(** The records of the batch [event] are [init] and then [last_record],
    and from the trace [t] the loop of [lambda_handler] goes through
    all of them without an exception. *)
Definition batch_processed aws json_loads (json_dumps : pyval -> string) environ
    (event : pyval) (init : list pyval) (last_record : pyval) (t : trace) : Prop :=
  exists records,
    getitem event "Records" = Ok records
    /\ py_iter records = Ok (init ++ [last_record])
    /\ succeeds (fst (for_records aws json_loads environ (init ++ [last_record]) None
                        (t ++ [Log INFO ("Processing SNS event: " +:+ json_dumps event) []]))).

(** The message of [record] decodes to the JSON object [m]. *)
Definition message_of (json_loads : string -> result pyval) (record : pyval)
    (m : list (string * pyval)) : Prop :=
  exists sns payload,
    getitem record "Sns" = Ok sns
    /\ getitem sns "Message" = Ok (PStr payload)
    /\ json_loads payload = Ok (PDict m).

(** The lifecycle-completion call of [lambda_handler]. *)
Definition completion (hook asg instance_id token : pyval) : event :=
  Call "autoscaling" "complete_lifecycle_action"
    [("LifecycleHookName", hook);
     ("AutoScalingGroupName", asg);
     ("InstanceId", instance_id);
     ("LifecycleActionToken", token);
     ("LifecycleActionResult", PStr "CONTINUE")].

(** An exception, and no call of the [methods]. *)
Definition raises_without (methods : list string) {A} (r : result A) (evs : list event) : Prop :=
  (exists e, r = Raise e) /\ calls_of methods evs = [].

(** ** Further statements about the program *)

(** The tag update of [update_name_tag]. *)
Definition name_tag_call (instance_id tag_name : pyval) : event :=
  Call "ec2" "create_tags"
    [("Resources", PList [instance_id]);
     ("Tags", PList [PDict [("Key", PStr "Name"); ("Value", tag_name)]])].

(** The DNS change of [update_record]: one A record with TTL 3. *)
Definition dns_change_call (zone_id : string) (ip : pyval) (hostname operation : string) : event :=
  Call "route53" "change_resource_record_sets"
    [("HostedZoneId", PStr zone_id);
     ("ChangeBatch",
      PDict [("Changes",
              PList [PDict [("Action", PStr operation);
                            ("ResourceRecordSet",
                             PDict [("Name", PStr hostname);
                                    ("Type", PStr "A");
                                    ("TTL", PInt 3);
                                    ("ResourceRecords", PList [PDict [("Value", ip)]])])]])])].

(** The calls that change something in AWS for a message. *)
Definition mutating : list string := ["create_tags"; "change_resource_record_sets"].

(** Every client method the program calls. *)
Definition all_methods : list string :=
  ["describe_instances"; "list_resource_record_sets"; "describe_tags";
   "describe_auto_scaling_groups"; "create_tags"; "change_resource_record_sets";
   "complete_lifecycle_action"].

(** [label] is the first label of [hostname]: what is before its first
    dot, or all of it when it has no dot. *)
Definition first_label (hostname label : string) : Prop :=
  PyString.contains "." label = false
  /\ (hostname = label \/ exists rest, hostname = label +:+ "." +:+ rest).

(** The changes a message may make: nothing, the name tag alone, the
    name tag and then an UPSERT, or a DELETE alone. *)
Definition message_changes (changes : list event) : Prop :=
  changes = []
  \/ (exists instance_id tag_name, changes = [name_tag_call instance_id tag_name])
  \/ (exists instance_id tag_name zone_id ip hostname,
         changes = [name_tag_call instance_id tag_name;
                    dns_change_call zone_id ip hostname "UPSERT"])
  \/ (exists zone_id ip hostname, changes = [dns_change_call zone_id ip hostname "DELETE"]).

(** At most one lifecycle completion, with no call of a client after
    it. *)
Definition completes_last (evs : list event) : Prop :=
  calls_of ["complete_lifecycle_action"] evs = []
  \/ exists before hook asg instance_id token after,
       evs = before ++ completion hook asg instance_id token :: after
       /\ calls_of ["complete_lifecycle_action"] before = []
       /\ calls_of all_methods after = [].

(** The message of [record] is a JSON object without a
    [LifecycleTransition] field. *)
Definition informational (json_loads : string -> result pyval) (record : pyval) : Prop :=
  exists m, message_of json_loads record m /\ dict_get "LifecycleTransition" m = None.

(** The changes of a batch: those of its messages, one after the
    other, for at most [n] messages. *)
Definition batch_changes (n : nat) (changes : list event) : Prop :=
  exists groups : list (list event),
    changes = concat groups
    /\ Forall message_changes groups
    /\ (length groups <= n)%nat.

(** The number of records of a batch (0 when the event has no
    [Records] to go through). *)
Definition batch_size (event : pyval) : nat :=
  match getitem event "Records" with
  | Ok records =>
      match py_iter records with
      | Ok items => length items
      | Raise _ => O
      end
  | Raise _ => O
  end.

(** The value of [operation] after the [if]/[elif]/[else] of
    [process_message], by the value of [LifecycleTransition]. *)
Definition operation_of (transition : pyval) : option string :=
  if eq_str transition LAUNCHING then Some "UPSERT"
  else if eq_str transition TERMINATING || eq_str transition LAUNCH_ERROR then Some "DELETE"
  else None.

(** [process_message] from the call of [fetch_tag_metadata] on, with
    its local variables [operation], [asg_name] and [instance_id]
    given. *)
Definition after_operation aws environ (operation : option string)
    (asg_name instance_id : pyval) : M unit :=
  metadata <- fetch_tag_metadata aws asg_name ;;
  pattern_zone <- unpack2 metadata ;;
  let hostname_pattern := fst pattern_zone in
  let zone_id := snd pattern_zone in
  hostname <- build_hostname aws hostname_pattern instance_id asg_name ;;
  op <- read_local "operation" operation ;;
  ip <- (if String.eqb op "UPSERT" then
           ip <- fetch_ip_from_ec2 aws environ instance_id ;;
           update_name_tag aws instance_id hostname ;;
           ret ip
         else
           fetch_ip_from_route53 aws hostname zone_id) ;;
  op' <- read_local "operation" operation ;;
  update_record aws zone_id ip hostname op'.

(** The call of [fetch_tag_metadata]. *)
Definition describe_tags_call (asg_name : pyval) : event :=
  Call "autoscaling" "describe_tags"
    [("Filters",
      PList [PDict [("Name", PStr "auto-scaling-group"); ("Values", PList [asg_name])];
             PDict [("Name", PStr "key"); ("Values", PList [PStr "asg:hostname_pattern"])]]);
     ("MaxRecords", PInt 1)].

(** Further deployments of the group of [Demo]. *)
Module Cases.

(** The hostname tag has no [@]. *)
Definition zoneless : Demo.world :=
  {| Demo.tags := [Demo.tag "web-#instanceid.example.com"];
     Demo.desired_capacity := PInt 3;
     Demo.instances := PList [PStr "i-0"; PStr "i-1"; PStr "i-2"];
     Demo.instance := [("PrivateIpAddress", PStr "10.0.0.5")];
     Demo.record_sets := [] |}.

(** The zone has no record at or after the hostname, and the instance
    has no public address. *)
Definition recordless : Demo.world :=
  {| Demo.tags := [Demo.tag "web-#instanceid.example.com@ZONE1"];
     Demo.desired_capacity := PInt 3;
     Demo.instances := PList [PStr "i-0"; PStr "i-1"; PStr "i-2"];
     Demo.instance := [("PrivateIpAddress", PStr "10.0.0.5")];
     Demo.record_sets := [] |}.


End Cases.

(** * Properties *)

(** ** The primitives on examples *)

Example contains_ex1 : PyString.contains "instance-count" "web-#instance-count.example.com" = true.
Proof. reflexivity. Qed.
Example contains_ex2 : PyString.contains "instanceid" "web.example.com" = false.
Proof. reflexivity. Qed.
Example replace_ex1 :
  PyString.replace "#instanceid" "i-1" "web-#instanceid.example.com" = "web-i-1.example.com".
Proof. reflexivity. Qed.
Example replace_ex2 : PyString.replace "aa" "b" "aaaaa" = "bba".
Proof. reflexivity. Qed.
Example replace_ex3 : PyString.replace EmptyString "-" "ab" = "-a-b-".
Proof. reflexivity. Qed.
Example split_ex1 :
  PyString.split "@" "web-#instanceid.example.com@ZONE1" = Ok ["web-#instanceid.example.com"; "ZONE1"].
Proof. reflexivity. Qed.
Example split_ex2 : PyString.split "@" "a@@b@" = Ok ["a"; EmptyString; "b"; EmptyString].
Proof. reflexivity. Qed.
Example split_ex3 : PyString.split "." EmptyString = Ok [EmptyString].
Proof. reflexivity. Qed.
Example of_Z_ex1 : PyString.of_Z 0 = "0" /\ PyString.of_Z 12 = "12" /\ PyString.of_Z (-5) = "-5".
Proof. repeat split; reflexivity. Qed.

Example py_eq_ex1 : py_eq (PInt 1) (PBool true) = true.
Proof. reflexivity. Qed.
Example py_eq_ex2 :
  py_eq (PDict [("a", PInt 1); ("b", PList [PStr "x"])])
        (PDict [("b", PList [PStr "x"]); ("a", PInt 1)]) = true.
Proof. reflexivity. Qed.
Example py_eq_ex3 : py_eq (PDict [("InstanceId", PStr "i-1")]) (PStr "i-1") = false.
Proof. reflexivity. Qed.
Example py_index_ex1 : py_index (PList [PStr "i-0"; PStr "i-1"; PStr "i-1"]) (PStr "i-1") = Ok 1.
Proof. reflexivity. Qed.
Example py_index_ex2 : py_index (PList [PStr "i-0"]) (PStr "i-1") = Raise ValueError.
Proof. reflexivity. Qed.

Example str_ex1 : PyRepr.str (PInt 3) = "3".
Proof. reflexivity. Qed.
Example str_ex2 :
  PyRepr.str (PList [PStr "a'b"; PBool true; PNone])
  = "[" +:+ String "034" "a'b" +:+ String "034" ", True, None]".
Proof. reflexivity. Qed.
Example str_ex3 :
  PyRepr.str (PDict [("k", PStr (String "010" "x\"))]) = "{'k': '\nx\\'}".
Proof. reflexivity. Qed.

Lemma calls_of_app methods evs1 evs2 :
  calls_of methods (evs1 ++ evs2) = calls_of methods evs1 ++ calls_of methods evs2.
Proof. apply List.filter_app. Qed.

(** ** Rules for [post] and [quiet] *)

Section PostRules.
Context {A B : Type}.

Lemma post_ret (a : A) (Q : result A -> list event -> Prop) :
  Q (Ok a) [] -> post (ret a) Q.
Proof. intros H t. exists (Ok a), []. by rewrite app_nil_r. Qed.

Lemma post_raise (e : exn) (Q : result A -> list event -> Prop) :
  Q (Raise e) [] -> post (raise e) Q.
Proof. intros H t. exists (Raise e), []. by rewrite app_nil_r. Qed.

Lemma post_lift (r : result A) (Q : result A -> list event -> Prop) :
  Q r [] -> post (lift r) Q.
Proof. intros H t. exists r, []. by rewrite app_nil_r. Qed.

Lemma post_bind (c : M A) (k : A -> M B) Q1 (Q : result B -> list event -> Prop) :
  post c Q1 ->
  (forall a evs1, Q1 (Ok a) evs1 -> post (k a) (fun r evs2 => Q r (evs1 ++ evs2))) ->
  (forall e evs1, Q1 (Raise e) evs1 -> Q (Raise e) evs1) ->
  post (bind c k) Q.
Proof.
  intros Hc Hk He t. unfold bind.
  destruct (Hc t) as (r & evs1 & -> & HQ1). destruct r as [a|e].
  - destruct (Hk a evs1 HQ1 (t ++ evs1)) as (r2 & evs2 & -> & HQ).
    exists r2, (evs1 ++ evs2). by rewrite app_assoc.
  - exists (Raise e), evs1. eauto.
Qed.

Lemma post_weaken (c : M A) (Q1 Q2 : result A -> list event -> Prop) :
  post c Q1 -> (forall r evs, Q1 r evs -> Q2 r evs) -> post c Q2.
Proof. intros Hc HQ t. destruct (Hc t) as (r & evs & ? & ?). eauto. Qed.

End PostRules.

Lemma post_log lvl msg args (Q : result unit -> list event -> Prop) :
  Q (Ok tt) [Log lvl msg args] -> post (log lvl msg args) Q.
Proof. intros H t. by exists (Ok tt), [Log lvl msg args]. Qed.

Lemma post_call aws client method kwargs (Q : result pyval -> list event -> Prop) :
  (forall r, Q r [Call client method kwargs]) -> post (call aws client method kwargs) Q.
Proof. intros H t. by exists (aws t client method kwargs), [Call client method kwargs]. Qed.

Lemma quiet_bind methods {A B} (c : M A) (k : A -> M B) :
  quiet methods c -> (forall a, quiet methods (k a)) -> quiet methods (bind c k).
Proof.
  intros Hc Hk. eapply post_bind; [exact Hc | | done].
  intros a evs1 H1. eapply post_weaken; [apply Hk|].
  intros r evs2 H2. cbn beta. by rewrite calls_of_app, H1, H2.
Qed.

Lemma quiet_call methods aws client m kwargs :
  existsb (String.eqb m) methods = false -> quiet methods (call aws client m kwargs).
Proof. intros H. apply post_call. intros _. unfold calls_of. cbn. by rewrite H. Qed.

Lemma post_bind_quiet methods {A B} (c : M A) (k : A -> M B)
    (Q : result B -> list event -> Prop) :
  prefix_stable methods Q ->
  quiet methods c -> (forall a, post (k a) Q) -> post (bind c k) Q.
Proof.
  intros [Hraise Hpre] Hc Hk. eapply post_bind; [exact Hc | |].
  - intros a evs1 H1. eapply post_weaken; [apply Hk|]. intros r evs2 H2. by apply Hpre.
  - intros e evs1 H1. by apply Hraise.
Qed.

(** Decomposes a computation built from the primitives into its steps. *)
Ltac quiet_step :=
  match goal with
  | |- quiet _ (bind _ _) => apply quiet_bind; [| intros ?]
  | |- quiet _ (ret _) => by apply post_ret
  | |- quiet _ (raise _) => by apply post_raise
  | |- quiet _ (lift _) => by apply post_lift
  | |- quiet _ (log _ _ _) => by apply post_log
  | |- quiet _ (read_local _ ?v) => destruct v; cbn [read_local]
  | |- quiet _ (call _ _ _ _) => by apply quiet_call
  | |- quiet _ (if ?b then _ else _) => destruct b
  | |- quiet _ (match ?x with _ => _ end) => destruct x
  end.

(** ** Which functions call which client methods *)

Section Quiet.
Variable aws : trace -> string -> string -> list (string * pyval) -> result pyval.
Variable json_loads : string -> result pyval.
Variable environ : gmap string string.
Variable methods : list string.

Lemma first_instance_field_quiet response key :
  quiet methods (first_instance_field response key).
Proof. unfold first_instance_field. repeat quiet_step. Qed.

Lemma fetch_ip_from_ec2_quiet instance_id :
  existsb (String.eqb "describe_instances") methods = false ->
  quiet methods (fetch_ip_from_ec2 aws environ instance_id).
Proof.
  intros H. unfold fetch_ip_from_ec2.
  repeat (quiet_step || apply first_instance_field_quiet).
Qed.

Lemma fetch_ip_from_route53_quiet hostname zone_id :
  existsb (String.eqb "list_resource_record_sets") methods = false ->
  quiet methods (fetch_ip_from_route53 aws hostname zone_id).
Proof. intros H. unfold fetch_ip_from_route53. repeat quiet_step. Qed.

Lemma fetch_tag_metadata_quiet asg_name :
  existsb (String.eqb "describe_tags") methods = false ->
  quiet methods (fetch_tag_metadata aws asg_name).
Proof. intros H. unfold fetch_tag_metadata, split_at. repeat quiet_step. Qed.

Lemma first_group_field_quiet asg_name key :
  existsb (String.eqb "describe_auto_scaling_groups") methods = false ->
  quiet methods (first_group_field aws asg_name key).
Proof. intros H. unfold first_group_field. repeat quiet_step. Qed.

Lemma build_hostname_quiet hostname_pattern instance_id asg_name :
  existsb (String.eqb "describe_auto_scaling_groups") methods = false ->
  quiet methods (build_hostname aws hostname_pattern instance_id asg_name).
Proof.
  intros H. unfold build_hostname, replace_instanceid.
  repeat (quiet_step || by apply first_group_field_quiet).
Qed.

Lemma select_operation_quiet message :
  quiet methods (select_operation message).
Proof. unfold select_operation. repeat quiet_step. Qed.

Lemma update_name_tag_quiet instance_id hostname :
  existsb (String.eqb "create_tags") methods = false ->
  quiet methods (update_name_tag aws instance_id hostname).
Proof. intros H. unfold update_name_tag. repeat quiet_step. Qed.

Lemma update_record_quiet zone_id ip hostname operation :
  existsb (String.eqb "change_resource_record_sets") methods = false ->
  quiet methods (update_record aws zone_id ip hostname operation).
Proof. intros H. unfold update_record. repeat quiet_step. Qed.

End Quiet.

Section Completion.
Variable aws : trace -> string -> string -> list (string * pyval) -> result pyval.
Variable json_loads : string -> result pyval.
Variable environ : gmap string string.

(** Only the end of [lambda_handler] completes a lifecycle action. *)
Lemma process_message_no_completion message :
  quiet ["complete_lifecycle_action"] (process_message aws environ message).
Proof.
  unfold process_message, unpack2.
  repeat (quiet_step
          || (by apply select_operation_quiet)
          || (by apply fetch_tag_metadata_quiet)
          || (by apply build_hostname_quiet)
          || (by apply fetch_ip_from_ec2_quiet)
          || (by apply fetch_ip_from_route53_quiet)
          || (by apply update_name_tag_quiet)
          || (by apply update_record_quiet)).
Qed.

Lemma process_record_no_completion record :
  quiet ["complete_lifecycle_action"] (process_record aws json_loads environ record).
Proof.
  unfold process_record, sns_message, loads.
  repeat (quiet_step || apply process_message_no_completion).
Qed.

Lemma for_records_no_completion items record :
  quiet ["complete_lifecycle_action"] (for_records aws json_loads environ items record).
Proof.
  revert record. induction items as [|r rest IH]; intros record; cbn [for_records].
  - by apply post_ret.
  - apply quiet_bind; [apply process_record_no_completion | intros _; apply IH].
Qed.

End Completion.

(** The launch scenario of the specification: the name tag is set to
    the first label and the record is upserted with the private
    address. *)
Example launch_scenario :
  process_message (Demo.aws (Demo.asg1 "web-#instanceid.example.com")) ∅
    (PDict Demo.launching) []
  = (Ok tt,
     [Log INFO "Processing %s event" [PStr "autoscaling:EC2_INSTANCE_LAUNCHING"];
      Log INFO "Fetching tags for ASG: %s" [PStr "asg1"];
      Call "autoscaling" "describe_tags"
        [("Filters",
          PList [PDict [("Name", PStr "auto-scaling-group"); ("Values", PList [PStr "asg1"])];
                 PDict [("Name", PStr "key"); ("Values", PList [PStr "asg:hostname_pattern"])]]);
         ("MaxRecords", PInt 1)];
      Log INFO "Found tags for ASG %s: %s" [PStr "asg1"; PStr "web-#instanceid.example.com@ZONE1"];
      Log INFO "Fetching IP for instance-id: %s" [PStr "i-1"];
      Call "ec2" "describe_instances" [("InstanceIds", PList [PStr "i-1"])];
      Log INFO "Found private IP for instance-id %s: %s" [PStr "i-1"; PStr "10.0.0.5"];
      Log INFO "Updating name tag for instance-id %s with: %s" [PStr "i-1"; PStr "web-i-1"];
      Call "ec2" "create_tags"
        [("Resources", PList [PStr "i-1"]);
         ("Tags", PList [PDict [("Key", PStr "Name"); ("Value", PStr "web-i-1")]])];
      Log INFO "Changing record with %s for %s -> %s in %s"
        [PStr "UPSERT"; PStr "web-i-1.example.com"; PStr "10.0.0.5"; PStr "ZONE1"];
      Call "route53" "change_resource_record_sets"
        [("HostedZoneId", PStr "ZONE1");
         ("ChangeBatch",
          PDict [("Changes",
                  PList [PDict [("Action", PStr "UPSERT");
                                ("ResourceRecordSet",
                                 PDict [("Name", PStr "web-i-1.example.com");
                                        ("Type", PStr "A");
                                        ("TTL", PInt 3);
                                        ("ResourceRecords",
                                         PList [PDict [("Value", PStr "10.0.0.5")]])])]])])]]).
Proof. vm_compute. reflexivity. Qed.

(** ** Facts about the primitives *)

Lemma eq_str_true (v : pyval) (s : string) : eq_str v s = true <-> v = PStr s.
Proof.
  unfold eq_str. destruct v; cbn; try (split; discriminate).
  rewrite String.eqb_eq. split; congruence.
Qed.

Lemma eq_str_false (v : pyval) (s : string) : eq_str v s = false <-> v <> PStr s.
Proof. rewrite <- eq_str_true. by destruct (eq_str v s). Qed.

Lemma py_in_dict (key : string) (d : list (string * pyval)) :
  py_in key (PDict d) = Ok (match dict_get key d with Some _ => true | None => false end).
Proof. cbn. by destruct (dict_get key d). Qed.

Lemma use_public_ip_true (environ : gmap string string) :
  use_public_ip environ = true <-> environ !! "use_public_ip" = Some "true".
Proof.
  unfold use_public_ip. destruct (environ !! "use_public_ip") as [v|]; cbn.
  - rewrite String.eqb_eq. split; congruence.
  - split; congruence.
Qed.

(** The concrete deployment satisfies the hypotheses on batches. *)

Lemma demo_batch_processed (w : Demo.world) (init : list pyval) (last_record : pyval) :
  succeeds (fst (for_records (Demo.aws w) (Demo.json_loads Demo.payloads) ∅
                   (init ++ [last_record]) None
                   ([] ++ [Log INFO ("Processing SNS event: "
                                     +:+ Demo.json_dumps (Demo.batch (init ++ [last_record]))) []]))) ->
  batch_processed (Demo.aws w) (Demo.json_loads Demo.payloads) Demo.json_dumps ∅
    (Demo.batch (init ++ [last_record])) init last_record [].
Proof. intros H. by exists (PList (init ++ [last_record])). Qed.

Lemma demo_message_of (payload : string) (m : list (string * pyval)) :
  Demo.json_loads Demo.payloads payload = Ok (PDict m) ->
  message_of (Demo.json_loads Demo.payloads) (Demo.sns_record payload) m.
Proof. intros H. by exists (PDict [("Message", PStr payload)]), payload. Qed.

(** ** The properties of the specification *)

(** C9. A message without a [LifecycleTransition] field has its [Event]
    field read before [process_message] returns: with the field the
    event is logged and nothing else happens, without it the lookup
    raises [KeyError('Event')]. *)
Theorem process_message_reads_event aws environ (d : list (string * pyval)) (t : trace) :
  dict_get "LifecycleTransition" d = None ->
  process_message aws environ (PDict d) t
  = match dict_get "Event" d with
    | Some ev => (Ok tt, t ++ [Log INFO "Processing %s event" [ev]])
    | None => (Raise (KeyError (PStr "Event")), t)
    end.
Proof.
  intros H. unfold process_message, bind, lift. rewrite py_in_dict, H. cbn.
  by destruct (dict_get "Event" d).
Qed.

Lemma process_message_reads_event_witness :
  process_message (Demo.aws (Demo.asg1 "web-#instanceid.example.com")) ∅
    (PDict Demo.test_notification) []
  = (Ok tt, [Log INFO "Processing %s event" [PStr "autoscaling:TEST_NOTIFICATION"]]).
Proof.
  exact (process_message_reads_event
           (Demo.aws (Demo.asg1 "web-#instanceid.example.com")) ∅
           Demo.test_notification [] eq_refl).
Defined.

(** A message with neither field is not skipped. *)
Example process_message_empty_message :
  process_message (Demo.aws (Demo.asg1 "web-#instanceid.example.com")) ∅ (PDict []) []
  = (Raise (KeyError (PStr "Event")), []).
Proof. reflexivity. Qed.

(** C8. [fetch_ip_from_ec2] returns the public address of the first
    instance of the response exactly when [os.environ] maps
    [use_public_ip] to the string "true"; for any other value, and when
    the variable is absent, it returns the private address.  (A missing
    address is the KeyError of the lookup.) *)
Theorem fetch_ip_from_ec2_follows_flag aws environ (instance_id : pyval) (t : trace)
    (response reservations reservation instances instance : pyval) :
  aws (t ++ [Log INFO "Fetching IP for instance-id: %s" [instance_id]])
      "ec2" "describe_instances" [("InstanceIds", PList [instance_id])] = Ok response ->
  getitem response "Reservations" = Ok reservations ->
  getitem0 reservations = Ok reservation ->
  getitem reservation "Instances" = Ok instances ->
  getitem0 instances = Ok instance ->
  (environ !! "use_public_ip" = Some "true" ->
   fst (fetch_ip_from_ec2 aws environ instance_id t) = getitem instance "PublicIpAddress")
  /\ (environ !! "use_public_ip" <> Some "true" ->
      fst (fetch_ip_from_ec2 aws environ instance_id t) = getitem instance "PrivateIpAddress").
Proof.
  intros Haws H1 H2 H3 H4.
  split; intros Hflag.
  - apply use_public_ip_true in Hflag.
    unfold fetch_ip_from_ec2, first_instance_field, bind, log, call, lift.
    rewrite Haws, Hflag, H1, H2, H3, H4.
    by destruct (getitem instance "PublicIpAddress").
  - assert (use_public_ip environ = false) as Hf.
    { destruct (use_public_ip environ) eqn:E; [|done]. by apply use_public_ip_true in E. }
    unfold fetch_ip_from_ec2, first_instance_field, bind, log, call, lift.
    rewrite Haws, Hf, H1, H2, H3, H4.
    by destruct (getitem instance "PrivateIpAddress").
Qed.

Lemma fetch_ip_from_ec2_follows_flag_witness :
  fst (fetch_ip_from_ec2 (Demo.aws (Demo.asg1 "web-#instanceid.example.com"))
         {[ "use_public_ip" := "true" ]} (PStr "i-1") [])
  = Ok (PStr "54.0.0.5").
Proof.
  refine (proj1 (fetch_ip_from_ec2_follows_flag
                   (Demo.aws (Demo.asg1 "web-#instanceid.example.com"))
                   {[ "use_public_ip" := "true" ]} (PStr "i-1") []
                   _ _ _ _ (PDict (Demo.instance (Demo.asg1 "web-#instanceid.example.com")))
                   eq_refl eq_refl eq_refl eq_refl eq_refl) _).
  vm_compute. reflexivity.
Defined.

(** Any other value of the flag selects the private address, and so
    does its absence. *)
Example fetch_ip_from_ec2_other_flag :
  fst (fetch_ip_from_ec2 (Demo.aws (Demo.asg1 "web-#instanceid.example.com"))
         {[ "use_public_ip" := "True" ]} (PStr "i-1") [])
  = Ok (PStr "10.0.0.5")
  /\ fst (fetch_ip_from_ec2 (Demo.aws (Demo.asg1 "web-#instanceid.example.com"))
            ∅ (PStr "i-1") [])
     = Ok (PStr "10.0.0.5").
Proof. split; vm_compute; reflexivity. Qed.

(** *** The operation selected for a transition *)

Lemma dns_actions_app evs1 evs2 : dns_actions (evs1 ++ evs2) = dns_actions evs1 ++ dns_actions evs2.
Proof. unfold dns_actions. by rewrite calls_of_app, map_app. Qed.

Lemma dns_actions_quiet evs : calls_of ["change_resource_record_sets"] evs = [] -> dns_actions evs = [].
Proof. unfold dns_actions. by intros ->. Qed.

Lemma one_change_stable op : prefix_stable ["change_resource_record_sets"] (one_change op).
Proof.
  split.
  - intros e evs H. right. split; [by apply dns_actions_quiet | by exists e].
  - intros r evs1 evs2 H1 H2. unfold one_change.
    by rewrite dns_actions_app, (dns_actions_quiet _ H1).
Qed.

Lemma update_record_one_change aws zone_id ip hostname op :
  post (update_record aws zone_id ip hostname op) (one_change op).
Proof.
  unfold update_record.
  eapply (post_bind _ _ (fun _ evs => evs = [_])); [by apply post_log | |].
  2: { intros e evs ->. right. split; [reflexivity | by exists e]. }
  intros [] evs1 ->.
  eapply (post_bind _ _ (fun _ evs => evs = [_]));
    [apply post_call; intros r; reflexivity | | ].
  - intros a evs2 ->. apply post_ret. by left.
  - intros e evs2 ->. by left.
Qed.

Lemma bind_lift_ok {A B} (a : A) (k : A -> M B) : bind (lift (Ok a)) k = k a.
Proof. reflexivity. Qed.

Lemma bind_ret {A B} (a : A) (k : A -> M B) : bind (ret a) k = k a.
Proof. reflexivity. Qed.

Lemma select_operation_known (d : list (string * pyval)) (tr op : string) :
  dict_get "LifecycleTransition" d = Some (PStr tr) ->
  (tr = LAUNCHING /\ op = "UPSERT")
  \/ ((tr = TERMINATING \/ tr = LAUNCH_ERROR) /\ op = "DELETE") ->
  select_operation (PDict d) = ret (Some op).
Proof.
  intros H Hcase. unfold select_operation. cbn [getitem]. rewrite H.
  destruct Hcase as [[-> ->] | [[-> | ->] ->]]; reflexivity.
Qed.

Lemma process_message_one_change aws environ (d : list (string * pyval)) (tr op : string) :
  dict_get "LifecycleTransition" d = Some (PStr tr) ->
  (tr = LAUNCHING /\ op = "UPSERT")
  \/ ((tr = TERMINATING \/ tr = LAUNCH_ERROR) /\ op = "DELETE") ->
  post (process_message aws environ (PDict d)) (one_change op).
Proof.
  intros H Hcase. unfold process_message.
  rewrite py_in_dict, H, bind_lift_ok. cbn [negb getitem]. rewrite H, bind_lift_ok.
  rewrite (select_operation_known d tr op H Hcase).
  pose proof (one_change_stable op) as Hst.
  apply (post_bind_quiet _ _ _ _ Hst); [by apply post_log | intros _; cbn beta].
  rewrite bind_ret.
  apply (post_bind_quiet _ _ _ _ Hst); [by apply post_lift | intros asg_name; cbn beta].
  apply (post_bind_quiet _ _ _ _ Hst); [by apply post_lift | intros instance_id; cbn beta].
  apply (post_bind_quiet _ _ _ _ Hst);
    [by apply fetch_tag_metadata_quiet | intros metadata; cbn beta].
  apply (post_bind_quiet _ _ _ _ Hst);
    [unfold unpack2; repeat quiet_step | intros pattern_zone; cbn beta zeta].
  apply (post_bind_quiet _ _ _ _ Hst);
    [by apply build_hostname_quiet | intros hostname; cbn beta].
  cbn [read_local]. rewrite bind_ret.
  apply (post_bind_quiet _ _ _ _ Hst);
    [| intros ip; cbn beta; rewrite bind_ret; apply update_record_one_change].
  destruct (String.eqb op "UPSERT").
  - repeat (quiet_step || (by apply fetch_ip_from_ec2_quiet) || (by apply update_name_tag_quiet)).
  - by apply fetch_ip_from_route53_quiet.
Qed.

(** For a known transition the local variable [operation] gets its
    value, and the only DNS change a run of [process_message] makes
    carries it as its action. *)
Lemma known_transition_selects aws environ (d : list (string * pyval)) (tr op : string) :
  dict_get "LifecycleTransition" d = Some (PStr tr) ->
  (tr = "autoscaling:EC2_INSTANCE_LAUNCHING" /\ op = "UPSERT")
  \/ ((tr = "autoscaling:EC2_INSTANCE_TERMINATING"
       \/ tr = "autoscaling:EC2_INSTANCE_LAUNCH_ERROR") /\ op = "DELETE") ->
  selects aws environ (PDict d) op.
Proof.
  intros H Hcase t. split.
  - by rewrite (select_operation_known d tr op H Hcase).
  - apply (process_message_one_change aws environ d tr op H Hcase).
Qed.

(** The termination scenario of the specification: the address is
    read from the record, the record is deleted, no tag is touched. *)
Example terminate_scenario :
  let run := process_message (Demo.aws (Demo.asg1 "web-#instanceid.example.com")) ∅
               (PDict Demo.terminating) [] in
  fst run = Ok tt
  /\ calls_of ["change_resource_record_sets"; "create_tags"] (snd run)
     = [Call "route53" "change_resource_record_sets"
          [("HostedZoneId", PStr "ZONE1");
           ("ChangeBatch",
            PDict [("Changes",
                    PList [PDict [("Action", PStr "DELETE");
                                  ("ResourceRecordSet",
                                   PDict [("Name", PStr "web-i-1.example.com");
                                          ("Type", PStr "A");
                                          ("TTL", PInt 3);
                                          ("ResourceRecords",
                                           PList [PDict [("Value", PStr "10.0.0.5")]])])]])])]].
Proof. split; vm_compute; reflexivity. Qed.

(** *** An unknown transition *)

Lemma raises_without_stable methods {A} : prefix_stable methods (@raises_without methods A).
Proof.
  split.
  - intros e evs H. split; [by exists e | done].
  - intros r evs1 evs2 H1 [He H2]. split; [done | by rewrite calls_of_app, H1, H2].
Qed.

Lemma select_operation_unknown (d : list (string * pyval)) (v : pyval) :
  dict_get "LifecycleTransition" d = Some v ->
  v <> PStr LAUNCHING -> v <> PStr TERMINATING -> v <> PStr LAUNCH_ERROR ->
  select_operation (PDict d)
  = (log ERROR "Encountered unknown event type: %s" [v] ;; ret None)%py.
Proof.
  intros H H1 H2 H3. unfold select_operation. cbn [getitem]. rewrite H.
  apply eq_str_false in H1, H2, H3.
  rewrite bind_lift_ok, H1, bind_lift_ok, H2, bind_lift_ok, H3, bind_ret.
  by rewrite bind_lift_ok.
Qed.

(** C7. For a message whose [LifecycleTransition] is present and is
    none of the three known values, [process_message] logs the error,
    leaves the local variable [operation] unassigned and goes on; the
    run then ends in an exception, and no DNS change (and no tag
    update) has been made. *)
Theorem unknown_transition_raises aws environ (d : list (string * pyval)) (v : pyval) (t : trace) :
  dict_get "LifecycleTransition" d = Some v ->
  v <> PStr "autoscaling:EC2_INSTANCE_LAUNCHING" ->
  v <> PStr "autoscaling:EC2_INSTANCE_TERMINATING" ->
  v <> PStr "autoscaling:EC2_INSTANCE_LAUNCH_ERROR" ->
  select_operation (PDict d) t
  = (Ok None, t ++ [Log ERROR "Encountered unknown event type: %s" [v]])
  /\ exists e evs,
       process_message aws environ (PDict d) t
       = (Raise e,
          t ++ Log INFO "Processing %s event" [v]
            :: Log ERROR "Encountered unknown event type: %s" [v] :: evs)
       /\ calls_of ["change_resource_record_sets"; "create_tags"] evs = [].
Proof.
  intros H H1 H2 H3.
  pose proof (select_operation_unknown d v H H1 H2 H3) as Hsel.
  split; [by rewrite Hsel |].
  set (methods := ["change_resource_record_sets"; "create_tags"]).
  enough (post (process_message aws environ (PDict d))
            (fun r evs0 => exists e evs,
               r = Raise e
               /\ evs0 = Log INFO "Processing %s event" [v]
                         :: Log ERROR "Encountered unknown event type: %s" [v] :: evs
               /\ calls_of methods evs = [])) as Hpost.
  { destruct (Hpost t) as (r & evs0 & Hrun & e & evs & -> & -> & Hq). by exists e, evs. }
  unfold process_message.
  rewrite py_in_dict, H, bind_lift_ok. cbn [negb getitem]. rewrite H, bind_lift_ok, Hsel.
  eapply (post_bind _ _ (fun r evs => r = Ok tt /\ evs = [_])); [by apply post_log | |].
  2: { by intros e evs [? _]. }
  intros [] evs1 [_ ->]. cbn beta.
  eapply (post_bind _ _ (fun r evs => r = Ok None /\ evs = [_])).
  { intros t0. by exists (Ok None), [Log ERROR "Encountered unknown event type: %s" [v]]. }
  2: { by intros e evs [? _]. }
  intros operation evs2 [Heq ->]. injection Heq as ->. cbn beta.
  apply post_weaken with (Q1 := raises_without methods).
  2: { intros r evs [[e ->] Hq]. by exists e, evs. }
  pose proof (@raises_without_stable methods unit) as Hst.
  apply (post_bind_quiet _ _ _ _ Hst); [by apply post_lift | intros asg_name; cbn beta].
  apply (post_bind_quiet _ _ _ _ Hst); [by apply post_lift | intros instance_id; cbn beta].
  apply (post_bind_quiet _ _ _ _ Hst);
    [by apply fetch_tag_metadata_quiet | intros metadata; cbn beta].
  apply (post_bind_quiet _ _ _ _ Hst);
    [unfold unpack2; repeat quiet_step | intros pattern_zone; cbn beta zeta].
  apply (post_bind_quiet _ _ _ _ Hst);
    [by apply build_hostname_quiet | intros hostname; cbn beta].
  cbn [read_local]. apply post_raise. split; [by eexists | done].
Qed.

Lemma unknown_transition_raises_witness :
  exists e evs,
    process_message (Demo.aws (Demo.asg1 "web-#instanceid.example.com")) ∅
      (PDict Demo.rebooting) []
    = (Raise e,
       [] ++ Log INFO "Processing %s event" [PStr "autoscaling:EC2_INSTANCE_REBOOT"]
          :: Log ERROR "Encountered unknown event type: %s" [PStr "autoscaling:EC2_INSTANCE_REBOOT"]
          :: evs)
    /\ calls_of ["change_resource_record_sets"; "create_tags"] evs = [].
Proof.
  refine (proj2 (unknown_transition_raises
                   (Demo.aws (Demo.asg1 "web-#instanceid.example.com")) ∅
                   Demo.rebooting (PStr "autoscaling:EC2_INSTANCE_REBOOT") [] eq_refl _ _ _));
    discriminate.
Defined.

(** When everything up to the hostname works, the exception is the
    read of the unassigned [operation]. *)
Example unknown_transition_unbound_operation :
  process_message (Demo.aws (Demo.asg1 "web-#instanceid.example.com")) ∅
    (PDict Demo.rebooting) []
  = (Raise (UnboundLocalError "operation"),
     [Log INFO "Processing %s event" [PStr "autoscaling:EC2_INSTANCE_REBOOT"];
      Log ERROR "Encountered unknown event type: %s" [PStr "autoscaling:EC2_INSTANCE_REBOOT"];
      Log INFO "Fetching tags for ASG: %s" [PStr "asg1"];
      Call "autoscaling" "describe_tags"
        [("Filters",
          PList [PDict [("Name", PStr "auto-scaling-group"); ("Values", PList [PStr "asg1"])];
                 PDict [("Name", PStr "key"); ("Values", PList [PStr "asg:hostname_pattern"])]]);
         ("MaxRecords", PInt 1)];
      Log INFO "Found tags for ASG %s: %s" [PStr "asg1"; PStr "web-#instanceid.example.com@ZONE1"]]).
Proof. vm_compute. reflexivity. Qed.

(** *** A hostname pattern without a tag *)

Lemma select_operation_succeeds (d : list (string * pyval)) (v : pyval) :
  dict_get "LifecycleTransition" d = Some v ->
  forall methods,
    post (select_operation (PDict d))
      (fun r evs => (exists o, r = Ok o) /\ calls_of methods evs = []).
Proof.
  intros H methods. unfold select_operation. cbn [getitem]. rewrite H, bind_lift_ok.
  destruct (eq_str v LAUNCHING); [apply post_ret; eauto |].
  rewrite bind_lift_ok.
  destruct (eq_str v TERMINATING).
  { rewrite bind_ret. apply post_ret; eauto. }
  rewrite bind_lift_ok, bind_ret.
  destruct (eq_str v LAUNCH_ERROR); [apply post_ret; eauto |].
  rewrite bind_lift_ok. intros t. exists (Ok None), [Log ERROR "Encountered unknown event type: %s" [v]].
  split; [reflexivity | eauto].
Qed.

Lemma build_hostname_exits aws (hostname_pattern : string) (instance_id asg_name : pyval) (t : trace) :
  PyString.contains "instanceid" hostname_pattern = false ->
  PyString.contains "instance-count" hostname_pattern = false ->
  PyString.contains "instance-index" hostname_pattern = false ->
  build_hostname aws hostname_pattern instance_id asg_name t
  = (Raise (SystemExit 1),
     t ++ [Log ERROR "Hostname pattern must contain one of the following tags: %s"
             [PList [PStr "instanceid"; PStr "instance-count"; PStr "instance-index"]]]).
Proof.
  intros H1 H2 H3. unfold build_hostname, possible_tags. cbn [existsb]. by rewrite H1, H2, H3.
Qed.

Lemma process_message_exits aws environ (hostname_pattern zone_id : string)
    (d : list (string * pyval)) (v asg_name instance_id : pyval) (t : trace) :
  PyString.contains "instanceid" hostname_pattern = false ->
  PyString.contains "instance-count" hostname_pattern = false ->
  PyString.contains "instance-index" hostname_pattern = false ->
  dict_get "LifecycleTransition" d = Some v ->
  dict_get "AutoScalingGroupName" d = Some asg_name ->
  dict_get "EC2InstanceId" d = Some instance_id ->
  (forall t0, fst (fetch_tag_metadata aws asg_name t0) = Ok [hostname_pattern; zone_id]) ->
  exists evs,
    process_message aws environ (PDict d) t = (Raise (SystemExit 1), t ++ evs)
    /\ calls_of ["create_tags"; "change_resource_record_sets"] evs = [].
Proof.
  intros H1 H2 H3 Hv Hasg Hid Htag.
  set (methods := ["create_tags"; "change_resource_record_sets"]).
  enough (post (process_message aws environ (PDict d))
            (fun r evs => r = Raise (SystemExit 1) /\ calls_of methods evs = [])) as Hpost.
  { destruct (Hpost t) as (r & evs & Hrun & -> & Hq). by exists evs. }
  unfold process_message.
  rewrite py_in_dict, Hv, bind_lift_ok. cbn [negb getitem]. rewrite Hv, Hasg, Hid, bind_lift_ok.
  eapply (post_bind _ _ (fun r evs => r = Ok tt /\ calls_of methods evs = []));
    [by apply post_log | | by intros e evs [? _]].
  intros _ evs1 [_ Hq1]. cbn beta.
  eapply post_bind; [apply (select_operation_succeeds d v Hv methods) | | by intros e evs [[o ?] _]].
  intros operation evs2 [_ Hq2]. cbn beta. rewrite !bind_lift_ok.
  eapply (post_bind _ _ (fun r evs => r = Ok [hostname_pattern; zone_id]
                                      /\ calls_of methods evs = [])).
  { intros t0. destruct (fetch_tag_metadata_quiet aws methods asg_name eq_refl t0)
      as (r & evs & Hrun & Hq).
    exists r, evs. split; [done |]. split; [| done].
    specialize (Htag t0). rewrite Hrun in Htag. exact Htag. }
  2: { by intros e evs [? _]. }
  intros metadata evs3 [Heq Hq3]. injection Heq as ->. cbn beta. cbn [unpack2].
  rewrite bind_ret. cbn beta zeta. cbn [fst snd].
  eapply (post_bind _ _ (fun r evs => r = Raise (SystemExit 1) /\ calls_of methods evs = [])).
  { intros t0. eexists _, _. split; [by apply build_hostname_exits | done]. }
  { by intros hostname evs [? _]. }
  intros e evs4 [Heq Hq4]. injection Heq as ->. split; [done |].
  by rewrite !calls_of_app, Hq1, Hq2, Hq3, Hq4.
Qed.

Lemma for_records_app aws json_loads environ (items1 items2 : list pyval)
    (r0 : option pyval) (t : trace) :
  for_records aws json_loads environ (items1 ++ items2) r0 t
  = bind (for_records aws json_loads environ items1 r0)
      (fun r => for_records aws json_loads environ items2 r) t.
Proof.
  revert r0 t. induction items1 as [|a items1 IH]; intros r0 t; [reflexivity |].
  cbn [app for_records]. unfold bind.
  destruct (process_record _ _ _ _ _) as [[[]|e] t1]; [| reflexivity].
  rewrite IH. reflexivity.
Qed.

(** C4. For a hostname pattern that contains none of [instanceid],
    [instance-count] and [instance-index], [build_hostname] logs the
    error and exits with status 1 without calling any client.  In
    [process_message] that is before the tag update and the DNS change,
    so the run of the message ends in [SystemExit(1)] with neither
    made; and nothing catches it: [lambda_handler] ends in
    [SystemExit(1)] at the first such message of the batch. *)
Theorem malformed_pattern_exits aws json_loads json_dumps environ (hostname_pattern : string) :
  PyString.contains "instanceid" hostname_pattern = false ->
  PyString.contains "instance-count" hostname_pattern = false ->
  PyString.contains "instance-index" hostname_pattern = false ->
  (forall (instance_id asg_name : pyval) (t : trace),
      build_hostname aws hostname_pattern instance_id asg_name t
      = (Raise (SystemExit 1),
         t ++ [Log ERROR "Hostname pattern must contain one of the following tags: %s"
                 [PList [PStr "instanceid"; PStr "instance-count"; PStr "instance-index"]]]))
  /\ (forall (d : list (string * pyval)) (v asg_name instance_id : pyval) (zone_id : string),
         dict_get "LifecycleTransition" d = Some v ->
         dict_get "AutoScalingGroupName" d = Some asg_name ->
         dict_get "EC2InstanceId" d = Some instance_id ->
         (forall t0, fst (fetch_tag_metadata aws asg_name t0) = Ok [hostname_pattern; zone_id]) ->
         (forall t : trace,
             exists evs,
               process_message aws environ (PDict d) t = (Raise (SystemExit 1), t ++ evs)
               /\ calls_of ["create_tags"; "change_resource_record_sets"] evs = [])
         /\ (forall (event context records record : pyval) (before after : list pyval)
                    (t : trace),
                getitem event "Records" = Ok records ->
                py_iter records = Ok (before ++ record :: after) ->
                succeeds (fst (for_records aws json_loads environ before None
                                 (t ++ [Log INFO ("Processing SNS event: "
                                                  +:+ json_dumps event) []]))) ->
                message_of json_loads record d ->
                fst (lambda_handler aws json_loads json_dumps environ event context t)
                = Raise (SystemExit 1))).
Proof.
  intros H1 H2 H3. split.
  { intros. by apply build_hostname_exits. }
  intros d v asg_name instance_id zone_id Hv Hasg Hid Htag.
  assert (forall t : trace,
             exists evs,
               process_message aws environ (PDict d) t = (Raise (SystemExit 1), t ++ evs)
               /\ calls_of ["create_tags"; "change_resource_record_sets"] evs = [])
    as Hprocess.
  { intros t. by apply (process_message_exits _ _ hostname_pattern zone_id d v asg_name instance_id). }
  split; [exact Hprocess |].
  intros event context records record before after t Hrec Hiter [r Hloop]
    (sns & payload & Hsns & Hpayload & Hloads).
  unfold lambda_handler, bind at 1, log at 1.
  rewrite Hrec, bind_lift_ok, Hiter, bind_lift_ok. unfold bind at 1.
  rewrite for_records_app. unfold bind at 1.
  destruct (for_records aws json_loads environ before None _) as [r' t2]. cbn [fst] in Hloop.
  subst r'. cbn [for_records]. unfold bind at 1.
  unfold process_record, sns_message, loads. unfold bind at 1 2, lift at 1 2.
  rewrite Hsns, Hpayload. unfold bind at 1, lift at 1. rewrite Hloads.
  destruct (Hprocess t2) as (evs & -> & _). reflexivity.
Qed.

Lemma malformed_pattern_exits_witness :
  build_hostname (Demo.aws (Demo.asg1 "web.example.com")) "web.example.com"
    (PStr "i-1") (PStr "asg1") []
  = (Raise (SystemExit 1),
     [] ++ [Log ERROR "Hostname pattern must contain one of the following tags: %s"
              [PList [PStr "instanceid"; PStr "instance-count"; PStr "instance-index"]]])
  /\ (exists evs,
         process_message (Demo.aws (Demo.asg1 "web.example.com")) ∅ (PDict Demo.launching) []
         = (Raise (SystemExit 1), [] ++ evs)
         /\ calls_of ["create_tags"; "change_resource_record_sets"] evs = [])
  /\ fst (lambda_handler (Demo.aws (Demo.asg1 "web.example.com"))
            (Demo.json_loads Demo.payloads) Demo.json_dumps ∅
            (Demo.batch ([Demo.sns_record "test"]
                         ++ Demo.sns_record "launching" :: [Demo.sns_record "test"]))
            PNone [])
     = Raise (SystemExit 1).
Proof.
  destruct (malformed_pattern_exits (Demo.aws (Demo.asg1 "web.example.com"))
              (Demo.json_loads Demo.payloads) Demo.json_dumps ∅
              "web.example.com" eq_refl eq_refl eq_refl) as [Hbuild Hmessage].
  destruct (Hmessage Demo.launching _ (PStr "asg1") (PStr "i-1") "ZONE1"
              eq_refl eq_refl eq_refl (fun t0 => eq_refl)) as [Hprocess Hbatch].
  split; [apply Hbuild |]. split; [apply Hprocess |].
  eapply (Hbatch _ PNone _ (Demo.sns_record "launching")
            [Demo.sns_record "test"] [Demo.sns_record "test"] []).
  - reflexivity.
  - reflexivity.
  - eexists. vm_compute. reflexivity.
  - by apply demo_message_of.
Defined.

(** The calls of such a batch: none of them changes anything, and the
    lifecycle action is not completed either. *)
Example malformed_pattern_ends_batch :
  let run := lambda_handler (Demo.aws (Demo.asg1 "web.example.com"))
               (Demo.json_loads Demo.payloads) Demo.json_dumps ∅
               (Demo.batch [Demo.sns_record "launching"; Demo.sns_record "test"]) PNone [] in
  fst run = Raise (SystemExit 1)
  /\ calls_of ["create_tags"; "change_resource_record_sets"; "complete_lifecycle_action"] (snd run)
     = [].
Proof. split; vm_compute; reflexivity. Qed.

(** *** Facts about [replace] *)

Lemma append_cons (c : ascii) (s u : string) : String c s +:+ u = String c (s +:+ u).
Proof. reflexivity. Qed.

Lemma append_nil (u : string) : EmptyString +:+ u = u.
Proof. reflexivity. Qed.

Lemma prefix_app (old post : string) : String.prefix old (old +:+ post) = true.
Proof.
  induction old as [|c old IH]; [by destruct post |].
  rewrite append_cons. cbn [String.prefix]. by destruct (Ascii.ascii_dec c c).
Qed.

Lemma prefix_split (a s : string) :
  String.prefix a s = true -> exists post, s = a +:+ post.
Proof.
  revert s. induction a as [|c a IH]; intros s H.
  - by exists s.
  - destruct s as [|c' s]; [done |]. cbn [String.prefix] in H.
    destruct (Ascii.ascii_dec c c') as [<- |]; [| done].
    destruct (IH s H) as [post ->]. by exists post.
Qed.

(** [contains] is the substring test. *)
Lemma contains_spec (sub s : string) :
  PyString.contains sub s = true <-> exists pre post, s = pre +:+ sub +:+ post.
Proof.
  split.
  - induction s as [|c s IH]; cbn [PyString.contains].
    + rewrite orb_false_r. intros [post ->]%prefix_split. by exists EmptyString, post.
    + intros [[post ->]%prefix_split | Hc]%orb_true_iff.
      * by exists EmptyString, post.
      * destruct (IH Hc) as (pre & post & ->). by exists (String c pre), post.
  - intros (pre & post & ->). induction pre as [|c pre IH].
    + rewrite append_nil. destruct (sub +:+ post) eqn:E; cbn [PyString.contains];
        rewrite <- E, prefix_app; reflexivity.
    + rewrite append_cons. cbn [PyString.contains]. rewrite IH. apply orb_true_r.
Qed.

Lemma contains_empty (s : string) : PyString.contains EmptyString s = true.
Proof. by destruct s. Qed.

Lemma replace_go_skip (old new u s : string) :
  PyString.replace_go old new (String.length u) (u +:+ s) = PyString.replace_go old new 0 s.
Proof.
  induction u as [|c u IH]; [by rewrite append_nil |].
  rewrite append_cons. cbn [String.length PyString.replace_go]. exact IH.
Qed.

(** Without an occurrence of [old], [replace] returns the string. *)
Lemma replace_absent (old new s : string) :
  PyString.contains old s = false -> PyString.replace old new s = s.
Proof.
  destruct old as [|a old]; [by rewrite contains_empty |].
  unfold PyString.replace. induction s as [|c s IH]; [done |].
  cbn [PyString.contains PyString.replace_go]. intros [Hp Hc]%orb_false_iff.
  rewrite Hp. f_equal. by apply IH.
Qed.

(** [replace] copies the characters before the first occurrence of
    [old], puts [new] for it and goes on after it. *)
Lemma replace_first_occurrence (old new pre post : string) :
  old <> EmptyString ->
  PyString.find old (pre +:+ old +:+ post) = Some (String.length pre) ->
  PyString.replace old new (pre +:+ old +:+ post)
  = pre +:+ new +:+ PyString.replace old new post.
Proof.
  destruct old as [|a old]; [done | intros _].
  unfold PyString.replace. induction pre as [|c pre IH]; intros Hfind.
  - rewrite !append_nil, append_cons. cbn [PyString.replace_go].
    rewrite <- append_cons, prefix_app. cbn [String.length].
    rewrite Nat.sub_1_r. cbn [Nat.pred].
    by rewrite replace_go_skip.
  - rewrite !append_cons in *. cbn [PyString.find String.length] in Hfind.
    cbn [PyString.replace_go].
    match goal with
    | |- context [String.prefix ?x ?y] => destruct (String.prefix x y); [done |]
    end.
    f_equal. apply IH.
    match type of Hfind with
    | context [PyString.find ?x ?y] => destruct (PyString.find x y); [| done]
    end.
    cbn in Hfind. congruence.
Qed.

Lemma find_split (old s : string) (n : nat) :
  PyString.find old s = Some n ->
  exists pre post, s = pre +:+ old +:+ post /\ String.length pre = n.
Proof.
  revert n. induction s as [|c s IH]; intros n; cbn [PyString.find].
  - destruct (String.prefix old EmptyString) eqn:Hp; [| done].
    intros [= <-]. destruct (prefix_split _ _ Hp) as [post ->]. by exists EmptyString, post.
  - destruct (String.prefix old (String c s)) eqn:Hp.
    + intros [= <-]. destruct (prefix_split _ _ Hp) as [post ->]. by exists EmptyString, post.
    + destruct (PyString.find old s) as [k|]; [| done]. intros [= <-].
      destruct (IH k eq_refl) as (pre & post & -> & <-). by exists (String c pre), post.
Qed.

Lemma contains_find (old s : string) :
  PyString.contains old s = true -> exists n, PyString.find old s = Some n.
Proof.
  induction s as [|c s IH]; cbn [PyString.contains PyString.find].
  - rewrite orb_false_r. intros ->. by exists O.
  - destruct (String.prefix old (String c s)); [by exists O |].
    intros [n ->]%IH. by exists (S n).
Qed.

Lemma length_append (a b : string) :
  String.length (a +:+ b) = (String.length a + String.length b)%nat.
Proof. induction a as [|c a IH]; [done |]. rewrite append_cons. cbn. by rewrite IH. Qed.

(** [replace] does what [replaced] says. *)
Lemma replace_replaced (old new s : string) :
  old <> EmptyString -> replaced old new s (PyString.replace old new s).
Proof.
  intros Hold.
  induction s as [s IH] using (well_founded_induction
                                 (well_founded_ltof string String.length)).
  destruct (PyString.contains old s) eqn:Hc.
  - destruct (contains_find _ _ Hc) as [n Hfind].
    destruct (find_split _ _ _ Hfind) as (pre & post & -> & <-).
    rewrite (replace_first_occurrence _ _ _ _ Hold Hfind).
    apply replaced_first; [done |]. apply IH. unfold ltof.
    rewrite !length_append. destruct old; [done |]. cbn. lia.
  - rewrite (replace_absent _ _ _ Hc). by apply replaced_none.
Qed.

(** *** The hostname *)

Lemma first_group_field_trace aws (asg_name : pyval) (key : string) (t : trace) :
  snd (first_group_field aws asg_name key t)
  = t ++ [Call "autoscaling" "describe_auto_scaling_groups"
            [("AutoScalingGroupNames", PList [asg_name])]].
Proof.
  unfold first_group_field, bind, call, lift.
  destruct (aws t _ _ _) as [response|e]; [| done].
  destruct (getitem response "AutoScalingGroups") as [groups|e]; [| done].
  by destruct (getitem0 groups).
Qed.

Lemma first_group_field_run aws (asg_name : pyval) (key : string) (t : trace) (v : pyval) :
  fst (first_group_field aws asg_name key t) = Ok v ->
  first_group_field aws asg_name key t
  = (Ok v, t ++ [Call "autoscaling" "describe_auto_scaling_groups"
                   [("AutoScalingGroupNames", PList [asg_name])]]).
Proof.
  intros H. pose proof (first_group_field_trace aws asg_name key t) as Ht.
  destruct (first_group_field aws asg_name key t) as [r t']. cbn in H, Ht. by subst.
Qed.

Lemma has_tag_count (hostname_pattern : string) :
  PyString.contains "instance-count" hostname_pattern = true ->
  existsb (fun tag => PyString.contains tag hostname_pattern) possible_tags = true.
Proof. intros H. cbn [existsb possible_tags]. rewrite H. by rewrite !orb_true_r. Qed.


Lemma build_hostname_count aws (hostname_pattern : string) (instance_id asg_name : pyval)
    (t : trace) (capacity : pyval) :
  PyString.contains "instance-count" hostname_pattern = true ->
  fst (first_group_field aws asg_name "DesiredCapacity" t) = Ok capacity ->
  build_hostname aws hostname_pattern instance_id asg_name t
  = (Ok (PyString.replace "#instance-count" (PyRepr.str capacity) hostname_pattern),
     t ++ [Call "autoscaling" "describe_auto_scaling_groups"
             [("AutoScalingGroupNames", PList [asg_name])]]).
Proof.
  intros Hc Hcap. unfold build_hostname.
  rewrite (has_tag_count _ Hc), Hc. cbn [negb]. rewrite bind_ret.
  unfold bind. by rewrite (first_group_field_run _ _ _ _ _ Hcap).
Qed.


(** An instance id that is not in the list. *)
Example instance_index_absent :
  build_hostname (Demo.aws (Demo.asg1 "web-#instance-index.example.com"))
    "web-#instance-index.example.com" (PStr "i-9") (PStr "asg1") []
  = (Raise ValueError,
     [Call "autoscaling" "describe_auto_scaling_groups"
        [("AutoScalingGroupNames", PList [PStr "asg1"])]]).
Proof. vm_compute. reflexivity. Qed.

(** The elements are compared with the id itself: in a list of
    instance descriptions (dictionaries with an [InstanceId] field) no
    element equals the id, and the call fails. *)
Example instance_index_of_descriptions :
  py_index (PList [PDict [("InstanceId", PStr "i-0"); ("LifecycleState", PStr "InService")];
                   PDict [("InstanceId", PStr "i-1"); ("LifecycleState", PStr "Pending")]])
    (PStr "i-1")
  = Raise ValueError.
Proof. reflexivity. Qed.

(** C2, as the specification states it, fails: the token of the
    specification is [instance-count], but what [build_hostname]
    replaces is [#instance-count].  A pattern with the token and
    without the [#] is returned as it is, although the desired capacity
    is 3; and with the [#], the [#] goes away with the token. *)
Lemma instance_count_token_counterexample :
  PyString.contains "instance-count" "web-instance-count.example.com" = true
  /\ PyString.contains "instanceid" "web-instance-count.example.com" = false
  /\ PyString.contains "instance-index" "web-instance-count.example.com" = false
  /\ fst (first_group_field (Demo.aws (Demo.asg1 "web-instance-count.example.com"))
            (PStr "asg1") "DesiredCapacity" []) = Ok (PInt 3)
  /\ fst (build_hostname (Demo.aws (Demo.asg1 "web-instance-count.example.com"))
            "web-instance-count.example.com" (PStr "i-1") (PStr "asg1") [])
     = Ok "web-instance-count.example.com"
  /\ fst (build_hostname (Demo.aws (Demo.asg1 "web-instance-count.example.com"))
            "web-instance-count.example.com" (PStr "i-1") (PStr "asg1") [])
     <> Ok "web-3.example.com"
  /\ fst (build_hostname (Demo.aws (Demo.asg1 "web-#instance-count.example.com"))
            "web-#instance-count.example.com" (PStr "i-1") (PStr "asg1") [])
     <> Ok "web-#3.example.com".
Proof.
  do 5 (split; [vm_compute; reflexivity |]).
  split; intros H; vm_compute in H; discriminate H.
Qed.

Lemma contains_tail (c : ascii) (sub s : string) :
  PyString.contains (String c sub) s = true -> PyString.contains sub s = true.
Proof.
  intros (pre & post & ->)%contains_spec. apply contains_spec.
  exists (pre +:+ String c EmptyString), post.
  induction pre as [|a pre IH]; [done |]. rewrite !append_cons. by f_equal.
Qed.

(** C2, amended. For a pattern that contains the placeholder
    [#instance-count] (the token with its [#]), whatever else it
    contains ([instance-index] included), [build_hostname] returns the
    pattern with every [#instance-count] replaced by the decimal string
    of the group's desired capacity and every other character
    unchanged; with one occurrence that is what is before it, the
    number, and what is after it. *)
Theorem instance_count_placeholder_replaced aws (hostname_pattern : string)
    (instance_id asg_name : pyval) (t : trace) (n : Z) :
  PyString.contains "#instance-count" hostname_pattern = true ->
  fst (first_group_field aws asg_name "DesiredCapacity" t) = Ok (PInt n) ->
  (exists hostname,
      fst (build_hostname aws hostname_pattern instance_id asg_name t) = Ok hostname
      /\ hostname = PyString.replace "#instance-count" (PyString.of_Z n) hostname_pattern
      /\ replaced "#instance-count" (PyString.of_Z n) hostname_pattern hostname)
  /\ (forall pre post : string,
         hostname_pattern = pre +:+ "#instance-count" +:+ post ->
         PyString.find "#instance-count" hostname_pattern = Some (String.length pre) ->
         PyString.contains "#instance-count" post = false ->
         fst (build_hostname aws hostname_pattern instance_id asg_name t)
         = Ok (pre +:+ PyString.of_Z n +:+ post)).
Proof.
  intros Hc%contains_tail Hcap.
  rewrite (build_hostname_count _ _ _ _ _ _ Hc Hcap). cbn [fst PyRepr.str PyRepr.repr].
  split.
  - eexists. split; [reflexivity |]. split; [reflexivity |].
    by apply replace_replaced.
  - intros pre post -> Hfind Hpost. f_equal.
    rewrite (replace_first_occurrence "#instance-count" _ _ _); [| discriminate | exact Hfind].
    by rewrite (replace_absent _ _ _ Hpost).
Qed.

Lemma instance_count_placeholder_replaced_witness :
  fst (build_hostname (Demo.aws (Demo.asg1 "web-#instance-count.example.com"))
         "web-#instance-count.example.com" (PStr "i-1") (PStr "asg1") [])
  = Ok ("web-" +:+ PyString.of_Z 3 +:+ ".example.com").
Proof.
  refine (proj2 (instance_count_placeholder_replaced
                   (Demo.aws (Demo.asg1 "web-#instance-count.example.com"))
                   "web-#instance-count.example.com" (PStr "i-1") (PStr "asg1") [] 3
                   eq_refl eq_refl)
            "web-" ".example.com" eq_refl eq_refl eq_refl).
Defined.

(** Every occurrence is replaced. *)
Example instance_count_twice :
  fst (build_hostname (Demo.aws (Demo.asg1 "n#instance-count-of-#instance-count.example.com"))
         "n#instance-count-of-#instance-count.example.com" (PStr "i-1") (PStr "asg1") [])
  = Ok "n3-of-3.example.com".
Proof. vm_compute. reflexivity. Qed.

(** [instance-count] is looked for first: with [instance-index] in the
    pattern as well, the count is substituted and the index is not. *)
Example instance_count_before_index :
  fst (build_hostname (Demo.aws (Demo.asg1 "#instance-index-of-#instance-count.example.com"))
         "#instance-index-of-#instance-count.example.com" (PStr "i-1") (PStr "asg1") [])
  = Ok "#instance-index-of-3.example.com".
Proof. vm_compute. reflexivity. Qed.

(** A pattern with [instanceid] only gets the instance id. *)
Example instanceid_replaced :
  fst (build_hostname (Demo.aws (Demo.asg1 "web-#instanceid.example.com"))
         "web-#instanceid.example.com" (PStr "i-1") (PStr "asg1") [])
  = Ok "web-i-1.example.com".
Proof. vm_compute. reflexivity. Qed.




(** The position is written in decimal. *)
Example instance_index_second :
  fst (build_hostname (Demo.aws (Demo.asg1 "web-#instance-index.example.com"))
         "web-#instance-index.example.com" (PStr "i-1") (PStr "asg1") [])
  = Ok "web-1.example.com".
Proof. vm_compute. reflexivity. Qed.

(** *** The end of the batch *)

Lemma for_records_last aws json_loads environ (items : list pyval)
    (r0 r : option pyval) (t t' : trace) :
  for_records aws json_loads environ items r0 t = (Ok r, t') ->
  r = match last items with Some x => Some x | None => r0 end.
Proof.
  revert r0 t. induction items as [|a rest IH]; intros r0 t; cbn [for_records].
  - unfold ret. by intros [= <- _].
  - unfold bind. destruct (process_record _ _ _ _ _) as [[[]|e] t1]; [| done].
    intros Hrest%IH. destruct rest as [|b rest]; [done |].
    rewrite last_cons_cons.
    destruct (last (b :: rest)) eqn:Hlast; [done | by apply last_None in Hlast].
Qed.

(** When the loop goes through, [lambda_handler] is its last part, run
    on the last record after events without a completion call. *)
Lemma lambda_handler_after_loop aws json_loads json_dumps environ
    (event context : pyval) (init : list pyval) (last_record : pyval) (t : trace) :
  batch_processed aws json_loads json_dumps environ event init last_record t ->
  exists evs,
    lambda_handler aws json_loads json_dumps environ event context t
    = finish_asg_action aws json_loads (Some last_record) (t ++ evs)
    /\ calls_of ["complete_lifecycle_action"] evs = [].
Proof.
  intros (records & Hrec & Hiter & r & Hloop).
  set (t1 := t ++ [Log INFO ("Processing SNS event: " +:+ json_dumps event) []]) in *.
  destruct (for_records_no_completion aws json_loads environ (init ++ [last_record]) None t1)
    as (r' & evs & Hrun & Hq).
  rewrite Hrun in Hloop. cbn [fst] in Hloop. subst r'.
  pose proof (for_records_last _ _ _ _ _ _ _ _ Hrun) as Hlast.
  rewrite last_snoc in Hlast. subst r.
  exists ([Log INFO ("Processing SNS event: " +:+ json_dumps event) []] ++ evs).
  split; [| rewrite calls_of_app, Hq; reflexivity].
  unfold lambda_handler, bind at 1, log at 1. fold t1.
  rewrite Hrec, bind_lift_ok, Hiter, bind_lift_ok. unfold bind at 1. rewrite Hrun.
  subst t1. by rewrite <- app_assoc.
Qed.

Lemma finish_asg_action_skips aws json_loads (last_record : pyval)
    (m : list (string * pyval)) (t : trace) :
  message_of json_loads last_record m ->
  dict_get "LifecycleHookName" m = None \/ dict_get "AutoScalingGroupName" m = None ->
  finish_asg_action aws json_loads (Some last_record) t
  = (Ok tt, t ++ [Log INFO "Finishing ASG action" []; Log ERROR "No valid JSON message" []]).
Proof.
  intros (sns & payload & Hsns & Hpayload & Hloads) Hlacks.
  unfold finish_asg_action, sns_message, loads, bind, log, read_local, ret, lift.
  rewrite Hsns, Hpayload, Hloads, !py_in_dict. unfold LIFECYCLE_KEY, ASG_KEY.
  destruct Hlacks as [-> | ->]; [by rewrite <- app_assoc |].
  by destruct (dict_get "LifecycleHookName" m); rewrite <- app_assoc.
Qed.

Lemma finish_asg_action_completes aws json_loads (last_record : pyval)
    (m : list (string * pyval)) (hook asg instance_id token : pyval) (t : trace) :
  message_of json_loads last_record m ->
  dict_get "LifecycleHookName" m = Some hook ->
  dict_get "AutoScalingGroupName" m = Some asg ->
  dict_get "EC2InstanceId" m = Some instance_id ->
  dict_get "LifecycleActionToken" m = Some token ->
  exists r evs,
    finish_asg_action aws json_loads (Some last_record) t
    = (r, t ++ Log INFO "Finishing ASG action" [] :: completion hook asg instance_id token :: evs)
    /\ calls_of ["complete_lifecycle_action"] evs = [].
Proof.
  intros (sns & payload & Hsns & Hpayload & Hloads) Hhook Hasg Hid Htoken.
  unfold finish_asg_action, sns_message, loads, bind, log, read_local, ret, lift, call.
  rewrite Hsns, Hpayload, Hloads, !py_in_dict. unfold LIFECYCLE_KEY, ASG_KEY.
  rewrite Hhook, Hasg. cbn [getitem]. rewrite Hhook, Hasg, Hid, Htoken.
  fold (completion hook asg instance_id token).
  destruct (aws _ _ _ _) as [response|e].
  - exists (Ok tt), [Log INFO "ASG action complete: %s" [response]].
    by rewrite <- !app_assoc.
  - exists (Raise e), []. by rewrite <- !app_assoc.
Qed.

Lemma finish_asg_action_key_error aws json_loads (last_record : pyval)
    (m : list (string * pyval)) (hook asg : pyval) (t : trace) :
  message_of json_loads last_record m ->
  dict_get "LifecycleHookName" m = Some hook ->
  dict_get "AutoScalingGroupName" m = Some asg ->
  dict_get "EC2InstanceId" m = None \/ dict_get "LifecycleActionToken" m = None ->
  exists key,
    (key = "EC2InstanceId" \/ key = "LifecycleActionToken")
    /\ dict_get key m = None
    /\ finish_asg_action aws json_loads (Some last_record) t
       = (Raise (KeyError (PStr key)), t ++ [Log INFO "Finishing ASG action" []]).
Proof.
  intros (sns & payload & Hsns & Hpayload & Hloads) Hhook Hasg Hlacks.
  unfold finish_asg_action, sns_message, loads, bind, log, read_local, ret, lift, call.
  rewrite Hsns, Hpayload, Hloads, !py_in_dict. unfold LIFECYCLE_KEY, ASG_KEY.
  rewrite Hhook, Hasg. cbn [getitem]. rewrite Hhook, Hasg.
  destruct (dict_get "EC2InstanceId" m) as [instance_id|] eqn:Hid.
  - destruct Hlacks as [? | Htoken]; [done |]. rewrite Htoken.
    exists "LifecycleActionToken". auto.
  - exists "EC2InstanceId". auto.
Qed.

(** C5, as the specification states it, fails.  On an empty batch the
    loop variable [record] is never assigned and the end of
    [lambda_handler] raises UnboundLocalError, with no error logged;
    and a last message without the two fields can itself stop the
    batch: the empty JSON object raises [KeyError('Event')] in
    [process_message]. *)
Lemma malformed_batch_counterexample :
  lambda_handler (Demo.aws (Demo.asg1 "web-#instanceid.example.com"))
    (Demo.json_loads Demo.payloads) Demo.json_dumps ∅ (Demo.batch []) PNone []
  = (Raise (UnboundLocalError "record"),
     [Log INFO "Processing SNS event: {...}" []; Log INFO "Finishing ASG action" []])
  /\ lambda_handler (Demo.aws (Demo.asg1 "web-#instanceid.example.com"))
       (Demo.json_loads Demo.payloads) Demo.json_dumps ∅
       (Demo.batch [Demo.sns_record "empty"]) PNone []
     = (Raise (KeyError (PStr "Event")), [Log INFO "Processing SNS event: {...}" []]).
Proof. split; vm_compute; reflexivity. Qed.

(** C5, amended. For a batch with at least one record, all of whose
    records are processed without an exception, and whose last record's
    message is a JSON object without [LifecycleHookName] or without
    [AutoScalingGroupName], [lambda_handler] logs the error "No valid
    JSON message", makes no lifecycle-completion call and returns. *)
Theorem malformed_last_message_is_skipped aws json_loads json_dumps environ
    (event context : pyval) (init : list pyval) (last_record : pyval)
    (m : list (string * pyval)) (t : trace) :
  batch_processed aws json_loads json_dumps environ event init last_record t ->
  message_of json_loads last_record m ->
  dict_get "LifecycleHookName" m = None \/ dict_get "AutoScalingGroupName" m = None ->
  exists evs,
    lambda_handler aws json_loads json_dumps environ event context t
    = (Ok tt,
       t ++ evs ++ [Log INFO "Finishing ASG action" []; Log ERROR "No valid JSON message" []])
    /\ calls_of ["complete_lifecycle_action"] evs = [].
Proof.
  intros Hbatch Hmsg Hlacks.
  destruct (lambda_handler_after_loop _ _ _ _ _ context _ _ _ Hbatch) as (evs & -> & Hq).
  exists evs. split; [| done].
  rewrite (finish_asg_action_skips _ _ _ _ _ Hmsg Hlacks). by rewrite <- app_assoc.
Qed.

Lemma malformed_last_message_is_skipped_witness :
  exists evs,
    lambda_handler (Demo.aws (Demo.asg1 "web-#instanceid.example.com"))
      (Demo.json_loads Demo.payloads) Demo.json_dumps ∅
      (Demo.batch ([Demo.sns_record "launching"] ++ [Demo.sns_record "test"])) PNone []
    = (Ok tt,
       [] ++ evs ++ [Log INFO "Finishing ASG action" []; Log ERROR "No valid JSON message" []])
    /\ calls_of ["complete_lifecycle_action"] evs = [].
Proof.
  eapply (malformed_last_message_is_skipped _ _ _ _ _ _ _ _ Demo.test_notification).
  - apply demo_batch_processed. eexists. vm_compute. reflexivity.
  - by apply demo_message_of.
  - by left.
Defined.

(** C6, as the specification states it, fails: the two fields in the
    last message do not make the completion call happen.  A last
    message with the two fields and no [EC2InstanceId] raises KeyError
    at the call's arguments; and a complete lifecycle message whose
    group has no hostname tag raises IndexError while it is processed,
    before the end of the batch.  No completion call is made in either
    run. *)
Lemma completion_call_counterexample :
  dict_get "LifecycleHookName" Demo.hook_notification = Some (PStr "hook")
  /\ dict_get "AutoScalingGroupName" Demo.hook_notification = Some (PStr "asg1")
  /\ fst (lambda_handler (Demo.aws (Demo.asg1 "web-#instanceid.example.com"))
            (Demo.json_loads Demo.payloads) Demo.json_dumps ∅
            (Demo.batch [Demo.sns_record "hook"]) PNone [])
     = Raise (KeyError (PStr "EC2InstanceId"))
  /\ calls_of ["complete_lifecycle_action"]
       (snd (lambda_handler (Demo.aws (Demo.asg1 "web-#instanceid.example.com"))
               (Demo.json_loads Demo.payloads) Demo.json_dumps ∅
               (Demo.batch [Demo.sns_record "hook"]) PNone []))
     = []
  /\ dict_get "LifecycleHookName" Demo.launching = Some (PStr "hook")
  /\ dict_get "AutoScalingGroupName" Demo.launching = Some (PStr "asg1")
  /\ fst (lambda_handler (Demo.aws Demo.untagged)
            (Demo.json_loads Demo.payloads) Demo.json_dumps ∅
            (Demo.batch [Demo.sns_record "launching"]) PNone [])
     = Raise IndexError
  /\ calls_of ["complete_lifecycle_action"]
       (snd (lambda_handler (Demo.aws Demo.untagged)
               (Demo.json_loads Demo.payloads) Demo.json_dumps ∅
               (Demo.batch [Demo.sns_record "launching"]) PNone []))
     = [].
Proof. repeat split; vm_compute; reflexivity. Qed.

(** C6, amended. For a batch with at least one record, all of whose
    records are processed without an exception, and whose last record's
    message carries [LifecycleHookName], [AutoScalingGroupName],
    [EC2InstanceId] and [LifecycleActionToken], [lambda_handler] makes
    exactly one lifecycle-completion call, with result CONTINUE and
    with those four values of the last message, however many records
    come before it. *)
Theorem completion_called_once aws json_loads json_dumps environ
    (event context : pyval) (init : list pyval) (last_record : pyval)
    (m : list (string * pyval)) (hook asg instance_id token : pyval) (t : trace) :
  batch_processed aws json_loads json_dumps environ event init last_record t ->
  message_of json_loads last_record m ->
  dict_get "LifecycleHookName" m = Some hook ->
  dict_get "AutoScalingGroupName" m = Some asg ->
  dict_get "EC2InstanceId" m = Some instance_id ->
  dict_get "LifecycleActionToken" m = Some token ->
  exists r evs,
    lambda_handler aws json_loads json_dumps environ event context t = (r, t ++ evs)
    /\ calls_of ["complete_lifecycle_action"] evs
       = [Call "autoscaling" "complete_lifecycle_action"
            [("LifecycleHookName", hook);
             ("AutoScalingGroupName", asg);
             ("InstanceId", instance_id);
             ("LifecycleActionToken", token);
             ("LifecycleActionResult", PStr "CONTINUE")]].
Proof.
  intros Hbatch Hmsg Hhook Hasg Hid Htoken.
  destruct (lambda_handler_after_loop _ _ _ _ _ context _ _ _ Hbatch) as (evs1 & -> & Hq1).
  destruct (finish_asg_action_completes aws _ _ _ _ _ _ _ (t ++ evs1) Hmsg Hhook Hasg Hid Htoken)
    as (r & evs2 & -> & Hq2).
  exists r, (evs1 ++ Log INFO "Finishing ASG action" []
                  :: completion hook asg instance_id token :: evs2).
  split; [by rewrite <- app_assoc |].
  rewrite calls_of_app, Hq1. unfold calls_of in *. cbn. by rewrite Hq2.
Qed.

Lemma completion_called_once_witness :
  exists r evs,
    lambda_handler (Demo.aws (Demo.asg1 "web-#instanceid.example.com"))
      (Demo.json_loads Demo.payloads) Demo.json_dumps ∅
      (Demo.batch ([Demo.sns_record "test"; Demo.sns_record "terminating"]
                   ++ [Demo.sns_record "launching"])) PNone []
    = (r, [] ++ evs)
    /\ calls_of ["complete_lifecycle_action"] evs
       = [Call "autoscaling" "complete_lifecycle_action"
            [("LifecycleHookName", PStr "hook");
             ("AutoScalingGroupName", PStr "asg1");
             ("InstanceId", PStr "i-1");
             ("LifecycleActionToken", PStr "token");
             ("LifecycleActionResult", PStr "CONTINUE")]].
Proof.
  eapply (completion_called_once _ _ _ _ _ _ _ _ Demo.launching).
  - apply demo_batch_processed. eexists. vm_compute. reflexivity.
  - by apply demo_message_of.
  - reflexivity.
  - reflexivity.
  - reflexivity.
  - reflexivity.
Defined.

(** C10. The guard at the end of [lambda_handler] looks for
    [LifecycleHookName] and [AutoScalingGroupName] only: when the last
    message has both and lacks [EC2InstanceId] or
    [LifecycleActionToken], building the arguments of the completion
    call raises the KeyError of the missing key, after the log line
    "Finishing ASG action" and nothing else: no error is logged and no
    completion call is made. *)
Theorem completion_guard_misses_keys aws json_loads json_dumps environ
    (last_record : pyval) (m : list (string * pyval)) (hook asg : pyval) :
  message_of json_loads last_record m ->
  dict_get "LifecycleHookName" m = Some hook ->
  dict_get "AutoScalingGroupName" m = Some asg ->
  dict_get "EC2InstanceId" m = None \/ dict_get "LifecycleActionToken" m = None ->
  (forall t : trace,
      exists key,
        (key = "EC2InstanceId" \/ key = "LifecycleActionToken")
        /\ dict_get key m = None
        /\ finish_asg_action aws json_loads (Some last_record) t
           = (Raise (KeyError (PStr key)), t ++ [Log INFO "Finishing ASG action" []]))
  /\ (forall (event context : pyval) (init : list pyval) (t : trace),
         batch_processed aws json_loads json_dumps environ event init last_record t ->
         exists key evs,
           (key = "EC2InstanceId" \/ key = "LifecycleActionToken")
           /\ dict_get key m = None
           /\ lambda_handler aws json_loads json_dumps environ event context t
              = (Raise (KeyError (PStr key)),
                 t ++ evs ++ [Log INFO "Finishing ASG action" []])
           /\ calls_of ["complete_lifecycle_action"] evs = []).
Proof.
  intros Hmsg Hhook Hasg Hlacks. split.
  - intros t. by apply (finish_asg_action_key_error aws _ _ _ hook asg).
  - intros event context init t Hbatch.
    destruct (lambda_handler_after_loop _ _ _ _ _ context _ _ _ Hbatch) as (evs & -> & Hq).
    destruct (finish_asg_action_key_error aws _ _ _ hook asg (t ++ evs) Hmsg Hhook Hasg Hlacks)
      as (key & Hkey & Hnone & ->).
    exists key, evs. by rewrite <- app_assoc.
Qed.

Lemma completion_guard_misses_keys_witness :
  exists key evs,
    (key = "EC2InstanceId" \/ key = "LifecycleActionToken")
    /\ dict_get key Demo.hook_notification = None
    /\ lambda_handler (Demo.aws (Demo.asg1 "web-#instanceid.example.com"))
         (Demo.json_loads Demo.payloads) Demo.json_dumps ∅
         (Demo.batch ([Demo.sns_record "launching"] ++ [Demo.sns_record "hook"])) PNone []
       = (Raise (KeyError (PStr key)), [] ++ evs ++ [Log INFO "Finishing ASG action" []])
    /\ calls_of ["complete_lifecycle_action"] evs = [].
Proof.
  refine (proj2 (completion_guard_misses_keys
                   (Demo.aws (Demo.asg1 "web-#instanceid.example.com"))
                   (Demo.json_loads Demo.payloads) Demo.json_dumps ∅
                   (Demo.sns_record "hook") Demo.hook_notification (PStr "hook") (PStr "asg1")
                   _ eq_refl eq_refl (or_introl eq_refl))
            (Demo.batch ([Demo.sns_record "launching"] ++ [Demo.sns_record "hook"])) PNone
            [Demo.sns_record "launching"] [] _).
  - by apply demo_message_of.
  - apply demo_batch_processed. eexists. vm_compute. reflexivity.
Defined.

(** * Further properties *)

(** ** [split] on a one-character separator *)

Lemma prefix_char (c a : ascii) (s : string) :
  String.prefix (String c EmptyString) (String a s) = bool_decide (c = a).
Proof.
  cbn [String.prefix]. destruct (Ascii.ascii_dec c a) as [->|Hne].
  - rewrite bool_decide_eq_true_2; [by destruct s | done].
  - by rewrite bool_decide_eq_false_2.
Qed.

Lemma contains_char_cons (c a : ascii) (s : string) :
  PyString.contains (String c EmptyString) (String a s)
  = bool_decide (c = a) || PyString.contains (String c EmptyString) s.
Proof. cbn [PyString.contains]. by rewrite prefix_char. Qed.

(** The first piece has no separator; a next piece exists exactly when
    a separator follows the first piece, and the pieces after it are
    the pieces of what follows that separator. *)
Lemma split_go_char (c : ascii) (s p : string) (ps : list string) :
  PyString.split_go (String c EmptyString) 0 s = (p, ps) ->
  PyString.contains (String c EmptyString) p = false
  /\ match ps with
     | [] => s = p
     | q :: qs =>
         exists rest, s = p +:+ String c rest
                      /\ PyString.split_go (String c EmptyString) 0 rest = (q, qs)
     end.
Proof.
  revert p ps. induction s as [|a s IH]; intros p ps; cbn [PyString.split_go].
  - by intros [= <- <-].
  - rewrite prefix_char. cbn [String.length Nat.sub].
    destruct (PyString.split_go (String c EmptyString) 0 s) as [p' ps'] eqn:Hs.
    case_bool_decide as Hca.
    + subst a. intros [= <- <-]. split; [done |]. by exists s.
    + intros [= <- <-]. destruct (IH p' ps' eq_refl) as [Hp' Hps'].
      split.
      * rewrite contains_char_cons, Hp'. by rewrite bool_decide_eq_false_2.
      * destruct ps' as [|q qs]; [by subst |].
        destruct Hps' as (rest & -> & Hrest). by exists rest.
Qed.

Lemma split_go_char_absent (c : ascii) (s : string) :
  PyString.contains (String c EmptyString) s = false ->
  PyString.split_go (String c EmptyString) 0 s = (s, []).
Proof.
  induction s as [|a s IH]; [done |].
  rewrite contains_char_cons. intros [Hca Hs]%orb_false_iff.
  cbn [PyString.split_go]. by rewrite prefix_char, Hca, (IH Hs).
Qed.

Lemma split_go_char_app (c : ascii) (p rest : string) :
  PyString.contains (String c EmptyString) p = false ->
  PyString.split_go (String c EmptyString) 0 (p +:+ String c rest)
  = (p, let '(q, qs) := PyString.split_go (String c EmptyString) 0 rest in q :: qs).
Proof.
  induction p as [|a p IH].
  - intros _. rewrite append_nil. cbn [PyString.split_go]. rewrite prefix_char.
    rewrite bool_decide_eq_true_2; [| done]. cbn [String.length Nat.sub].
    by destruct (PyString.split_go (String c EmptyString) 0 rest).
  - rewrite contains_char_cons. intros [Hca Hp]%orb_false_iff.
    rewrite append_cons. cbn [PyString.split_go]. by rewrite prefix_char, Hca, (IH Hp).
Qed.

(** [s.split(c)] gives two pieces exactly for the strings with one
    separator: the pieces are what is before and what is after it. *)
Lemma split_char_two (c : ascii) (s p z : string) :
  PyString.split (String c EmptyString) s = Ok [p; z]
  <-> s = p +:+ String c z
      /\ PyString.contains (String c EmptyString) p = false
      /\ PyString.contains (String c EmptyString) z = false.
Proof.
  unfold PyString.split. split.
  - destruct (PyString.split_go (String c EmptyString) 0 s) as [p' ps] eqn:Hs.
    intros [= -> ->]. destruct (split_go_char _ _ _ _ Hs) as [Hp (rest & -> & Hrest)].
    destruct (split_go_char _ _ _ _ Hrest) as [Hz ->]. done.
  - intros (-> & Hp & Hz). by rewrite (split_go_char_app _ _ _ Hp), (split_go_char_absent _ _ Hz).
Qed.

(** The first piece of [s.split(c)] is the first label of [s]. *)
Lemma split_char_first (s : string) :
  exists label rest,
    PyString.split "." s = Ok (label :: rest) /\ first_label s label.
Proof.
  unfold PyString.split.
  destruct (PyString.split_go "." 0 s) as [p ps] eqn:Hs.
  exists p, ps. split; [done |].
  destruct (split_go_char _ _ _ _ Hs) as [Hp Hps]. split; [done |].
  destruct ps as [|q qs]; [by left |]. destruct Hps as (rest & -> & _). right. by exists rest.
Qed.

(** ** The functions one by one *)

(** X2. [update_name_tag] makes one call, [create_tags] on the
    instance, whose only tag is [Name] with the first label of the
    hostname as its value: what is before the first dot, or the whole
    hostname when it has no dot.  It returns when the call does and
    raises what the call raises. *)
Theorem update_name_tag_first_label aws (instance_id : pyval) (hostname : string) (t : trace) :
  exists label,
    first_label hostname label
    /\ update_name_tag aws instance_id hostname t
       = (match aws (t ++ [Log INFO "Updating name tag for instance-id %s with: %s"
                             [instance_id; PStr label]])
                  "ec2" "create_tags"
                  [("Resources", PList [instance_id]);
                   ("Tags", PList [PDict [("Key", PStr "Name"); ("Value", PStr label)]])]
          with
          | Ok _ => Ok tt
          | Raise e => Raise e
          end,
          t ++ [Log INFO "Updating name tag for instance-id %s with: %s"
                  [instance_id; PStr label];
                name_tag_call instance_id (PStr label)]).
Proof.
  destruct (split_char_first hostname) as (label & rest & Hsplit & Hlabel).
  exists label. split; [done |].
  unfold update_name_tag, bind, lift, log, call, ret. rewrite Hsplit. cbn [map getitem0].
  rewrite <- app_assoc. by destruct (aws _ _ _ _).
Qed.

(** X1. For a pattern with [instanceid] and with neither
    [instance-count] nor [instance-index], [build_hostname] calls no
    client and logs nothing: with a string as instance id it returns
    the pattern with every [#instanceid] replaced by the id and all
    other characters kept, and with any other value as instance id it
    raises TypeError. *)
Theorem build_hostname_instanceid aws (hostname_pattern : string)
    (instance_id asg_name : pyval) (t : trace) :
  PyString.contains "instanceid" hostname_pattern = true ->
  PyString.contains "instance-count" hostname_pattern = false ->
  PyString.contains "instance-index" hostname_pattern = false ->
  (forall id : string,
      instance_id = PStr id ->
      build_hostname aws hostname_pattern instance_id asg_name t
      = (Ok (PyString.replace "#instanceid" id hostname_pattern), t)
      /\ replaced "#instanceid" id hostname_pattern
           (PyString.replace "#instanceid" id hostname_pattern))
  /\ ((forall id : string, instance_id <> PStr id) ->
      build_hostname aws hostname_pattern instance_id asg_name t = (Raise TypeError, t)).
Proof.
  intros Hid Hcount Hindex.
  assert (build_hostname aws hostname_pattern instance_id asg_name t
          = replace_instanceid hostname_pattern instance_id t) as ->.
  { unfold build_hostname, possible_tags. cbn [existsb]. by rewrite Hid, Hcount, Hindex. }
  split.
  - intros id ->. split; [done |]. by apply replace_replaced.
  - intros Hne. destruct instance_id; try done. by destruct (Hne s).
Qed.

Lemma build_hostname_instanceid_witness :
  build_hostname (Demo.aws (Demo.asg1 "web-#instanceid.example.com"))
    "web-#instanceid.example.com" (PStr "i-1") (PStr "asg1") []
  = (Ok (PyString.replace "#instanceid" "i-1" "web-#instanceid.example.com"), []).
Proof.
  exact (proj1 (proj1 (build_hostname_instanceid
                         (Demo.aws (Demo.asg1 "web-#instanceid.example.com"))
                         "web-#instanceid.example.com" (PStr "i-1") (PStr "asg1") []
                         eq_refl eq_refl eq_refl) "i-1" eq_refl)).
Defined.

(** X14. Whatever the pattern, [build_hostname] calls a client at most
    once, and the call is [describe_auto_scaling_groups] for the group
    it was given. *)
Theorem build_hostname_reads_once aws (hostname_pattern : string)
    (instance_id asg_name : pyval) (t : trace) :
  exists r evs,
    build_hostname aws hostname_pattern instance_id asg_name t = (r, t ++ evs)
    /\ (calls_of all_methods evs = []
        \/ calls_of all_methods evs
           = [Call "autoscaling" "describe_auto_scaling_groups"
                [("AutoScalingGroupNames", PList [asg_name])]]).
Proof.
  unfold build_hostname, bind at 1.
  destruct (negb _).
  { eexists _, [_]. split; [reflexivity | by left]. }
  unfold ret at 1.
  destruct (PyString.contains "instance-count" hostname_pattern).
  { unfold bind. pose proof (first_group_field_trace aws asg_name "DesiredCapacity" t) as Ht.
    destruct (first_group_field aws asg_name "DesiredCapacity" t) as [[v|e] t']; cbn in Ht; subst t'.
    - eexists _, [_]. split; [reflexivity | by right].
    - eexists _, [_]. split; [reflexivity | by right]. }
  destruct (PyString.contains "instance-index" hostname_pattern).
  { unfold bind at 1. pose proof (first_group_field_trace aws asg_name "Instances" t) as Ht.
    destruct (first_group_field aws asg_name "Instances" t) as [[v|e] t']; cbn in Ht; subst t'.
    - unfold bind, lift. destruct (py_index v instance_id);
        (eexists _, [_]; split; [reflexivity | by right]).
    - eexists _, [_]. split; [reflexivity | by right]. }
  exists (fst (replace_instanceid hostname_pattern instance_id t)), [].
  rewrite app_nil_r. split; [| by left]. by destruct instance_id.
Qed.

(** X5. [fetch_ip_from_route53] asks for one record set starting at
    the hostname with type A and returns the first value of the first
    record set of the answer, whatever the name and the type of that
    record set are; when the answer has no record set, it raises
    IndexError. *)
Theorem fetch_ip_from_route53_first_value aws (hostname zone_id : string) (t : trace)
    (response : pyval) (record_sets : list pyval) :
  aws (t ++ [Log INFO "Fetching IP for hostname: %s" [PStr hostname]])
      "route53" "list_resource_record_sets"
      [("HostedZoneId", PStr zone_id);
       ("StartRecordName", PStr hostname);
       ("StartRecordType", PStr "A");
       ("MaxItems", PStr "1")] = Ok response ->
  getitem response "ResourceRecordSets" = Ok (PList record_sets) ->
  (record_sets = [] ->
   fst (fetch_ip_from_route53 aws hostname zone_id t) = Raise IndexError)
  /\ (forall (record_set : pyval) (others more : list pyval) (record ip : pyval),
         record_sets = record_set :: others ->
         getitem record_set "ResourceRecords" = Ok (PList (record :: more)) ->
         getitem record "Value" = Ok ip ->
         fetch_ip_from_route53 aws hostname zone_id t
         = (Ok ip,
            t ++ [Log INFO "Fetching IP for hostname: %s" [PStr hostname];
                  Call "route53" "list_resource_record_sets"
                    [("HostedZoneId", PStr zone_id);
                     ("StartRecordName", PStr hostname);
                     ("StartRecordType", PStr "A");
                     ("MaxItems", PStr "1")];
                  Log INFO "Found IP for hostname %s: %s" [PStr hostname; ip]])).
Proof.
  intros Haws Hsets. split.
  - intros ->. unfold fetch_ip_from_route53, bind, log, call, lift. by rewrite Haws, Hsets.
  - intros record_set others more record ip -> Hrecords Hvalue.
    unfold fetch_ip_from_route53, bind, log, call, lift, ret.
    rewrite Haws, Hsets. cbn [getitem0]. rewrite Hrecords. cbn [getitem0]. rewrite Hvalue.
    by rewrite <- !app_assoc.
Qed.

Lemma fetch_ip_from_route53_first_value_witness :
  fetch_ip_from_route53 (Demo.aws (Demo.asg1 "web-#instanceid.example.com"))
    "web-i-0.example.com" "ZONE1" []
  = (Ok (PStr "10.0.0.5"),
     [] ++ [Log INFO "Fetching IP for hostname: %s" [PStr "web-i-0.example.com"];
            Call "route53" "list_resource_record_sets"
              [("HostedZoneId", PStr "ZONE1");
               ("StartRecordName", PStr "web-i-0.example.com");
               ("StartRecordType", PStr "A");
               ("MaxItems", PStr "1")];
            Log INFO "Found IP for hostname %s: %s"
              [PStr "web-i-0.example.com"; PStr "10.0.0.5"]]).
Proof.
  refine (proj2 (fetch_ip_from_route53_first_value
                   (Demo.aws (Demo.asg1 "web-#instanceid.example.com"))
                   "web-i-0.example.com" "ZONE1" [] _ _ eq_refl eq_refl)
            _ [] [] _ (PStr "10.0.0.5") eq_refl eq_refl eq_refl).
Defined.

Lemma fetch_tag_metadata_run aws (asg_name : pyval) (t : trace)
    (response tags tag : pyval) (tag_value : string) :
  aws (t ++ [Log INFO "Fetching tags for ASG: %s" [asg_name]])
      "autoscaling" "describe_tags"
      [("Filters",
        PList [PDict [("Name", PStr "auto-scaling-group"); ("Values", PList [asg_name])];
               PDict [("Name", PStr "key"); ("Values", PList [PStr "asg:hostname_pattern"])]]);
       ("MaxRecords", PInt 1)] = Ok response ->
  getitem response "Tags" = Ok tags ->
  getitem0 tags = Ok tag ->
  getitem tag "Value" = Ok (PStr tag_value) ->
  fst (fetch_tag_metadata aws asg_name t) = PyString.split "@" tag_value.
Proof.
  intros Haws Htags Htag Hvalue.
  unfold fetch_tag_metadata, bind, log, call, lift, split_at, HOSTNAME_TAG_NAME.
  by rewrite Haws, Htags, Htag, Hvalue.
Qed.

(** X3. When the group's first hostname tag has the string
    [tag_value] as its value, [fetch_tag_metadata] returns the pair of
    a pattern and a zone id exactly when [tag_value] is the pattern, one
    [@] and the zone id, with no other [@] in it. *)
Theorem fetch_tag_metadata_pair aws (asg_name : pyval) (t : trace)
    (response tags tag : pyval) (tag_value : string) :
  aws (t ++ [Log INFO "Fetching tags for ASG: %s" [asg_name]])
      "autoscaling" "describe_tags"
      [("Filters",
        PList [PDict [("Name", PStr "auto-scaling-group"); ("Values", PList [asg_name])];
               PDict [("Name", PStr "key"); ("Values", PList [PStr "asg:hostname_pattern"])]]);
       ("MaxRecords", PInt 1)] = Ok response ->
  getitem response "Tags" = Ok tags ->
  getitem0 tags = Ok tag ->
  getitem tag "Value" = Ok (PStr tag_value) ->
  forall hostname_pattern zone_id : string,
    fst (fetch_tag_metadata aws asg_name t) = Ok [hostname_pattern; zone_id]
    <-> tag_value = hostname_pattern +:+ "@" +:+ zone_id
        /\ PyString.contains "@" hostname_pattern = false
        /\ PyString.contains "@" zone_id = false.
Proof.
  intros Haws Htags Htag Hvalue hostname_pattern zone_id.
  rewrite (fetch_tag_metadata_run _ _ _ _ _ _ _ Haws Htags Htag Hvalue).
  apply (split_char_two "@").
Qed.

Lemma fetch_tag_metadata_pair_witness :
  fst (fetch_tag_metadata (Demo.aws (Demo.asg1 "web-#instanceid.example.com")) (PStr "asg1") [])
  = Ok ["web-#instanceid.example.com"; "ZONE1"].
Proof.
  refine (proj2 (fetch_tag_metadata_pair
                   (Demo.aws (Demo.asg1 "web-#instanceid.example.com")) (PStr "asg1") []
                   _ _ _ "web-#instanceid.example.com@ZONE1"
                   eq_refl eq_refl eq_refl eq_refl
                   "web-#instanceid.example.com" "ZONE1") _).
  repeat split; reflexivity.
Defined.

(** ** What a message changes *)

Lemma post_bind_quiet_with methods {A B} (c : M A) (k : A -> M B)
    (P : result A -> Prop) (Q : result B -> list event -> Prop) :
  prefix_stable methods Q ->
  post c (fun r evs => calls_of methods evs = [] /\ P r) ->
  (forall a, P (Ok a) -> post (k a) Q) ->
  post (bind c k) Q.
Proof.
  intros [Hraise Hpre] Hc Hk. eapply post_bind; [exact Hc | |].
  - intros a evs1 [H1 HP]. eapply post_weaken; [by apply Hk |].
    intros r evs2 H2. by apply Hpre.
  - intros e evs1 [H1 _]. by apply Hraise.
Qed.

(** A computation whose outcome is known from every trace. *)
Lemma quiet_pin methods {A} (c : M A) (r0 : result A) :
  quiet methods c -> (forall t0, fst (c t0) = r0) ->
  post c (fun r evs => calls_of methods evs = [] /\ r = r0).
Proof.
  intros Hc Hpin t. destruct (Hc t) as (r & evs & Hrun & Hq).
  exists r, evs. split; [done |]. split; [done |].
  specialize (Hpin t). by rewrite Hrun in Hpin.
Qed.

(** The value [select_operation] leaves in [operation]. *)
Lemma select_operation_values methods (message : pyval) :
  post (select_operation message)
    (fun r evs =>
       calls_of methods evs = []
       /\ forall o, r = Ok o -> o = None \/ o = Some "UPSERT" \/ o = Some "DELETE").
Proof.
  unfold select_operation.
  destruct (getitem message "LifecycleTransition") as [v|e].
  2: { apply post_raise. by split. }
  rewrite bind_lift_ok.
  destruct (eq_str v LAUNCHING).
  { apply post_ret. split; [done |]. intros o [= <-]. auto. }
  rewrite bind_lift_ok.
  destruct (eq_str v TERMINATING).
  { rewrite bind_ret. apply post_ret. split; [done |]. intros o [= <-]. auto. }
  rewrite bind_lift_ok, bind_ret.
  destruct (eq_str v LAUNCH_ERROR).
  { apply post_ret. split; [done |]. intros o [= <-]. auto. }
  rewrite bind_lift_ok. intros t.
  exists (Ok None), [Log ERROR "Encountered unknown event type: %s" [v]].
  split; [reflexivity |]. split; [done |]. intros o [= <-]. auto.
Qed.

Lemma update_name_tag_run aws (instance_id : pyval) (hostname : string) :
  post (update_name_tag aws instance_id hostname)
    (fun r evs =>
       exists label,
         first_label hostname label
         /\ evs = [Log INFO "Updating name tag for instance-id %s with: %s"
                     [instance_id; PStr label];
                   name_tag_call instance_id (PStr label)]).
Proof.
  intros t. destruct (split_char_first hostname) as (label & rest & Hsplit & Hlabel).
  unfold update_name_tag, bind, lift, log, call, ret. rewrite Hsplit. cbn [map getitem0].
  rewrite <- app_assoc. destruct (aws _ _ _ _); eexists _, _; (split; [reflexivity |]);
    by exists label.
Qed.

Lemma update_record_run aws (zone_id : string) (ip : pyval) (hostname operation : string) :
  post (update_record aws zone_id ip hostname operation)
    (fun r evs =>
       evs = [Log INFO "Changing record with %s for %s -> %s in %s"
                [PStr operation; PStr hostname; ip; PStr zone_id];
              dns_change_call zone_id ip hostname operation]).
Proof.
  intros t. unfold update_record, bind, log, call, ret. rewrite <- app_assoc.
  destruct (aws _ _ _ _); by eexists _, _.
Qed.

Lemma message_changes_stable :
  prefix_stable mutating (fun (_ : result unit) evs => message_changes (calls_of mutating evs)).
Proof.
  split.
  - intros e evs ->. by left.
  - intros r evs1 evs2 H1 H2. by rewrite calls_of_app, H1.
Qed.

(** The tail of [process_message] once [operation] is read. *)
Lemma process_message_tail_changes aws environ (instance_id : pyval)
    (zone_id hostname op : string) :
  op = "UPSERT" \/ op = "DELETE" ->
  post (ip <- (if String.eqb op "UPSERT" then
                 ip <- fetch_ip_from_ec2 aws environ instance_id ;;
                 update_name_tag aws instance_id hostname ;;
                 ret ip
               else
                 fetch_ip_from_route53 aws hostname zone_id) ;;
        op' <- read_local "operation" (Some op) ;;
        update_record aws zone_id ip hostname op')%py
    (fun _ evs => message_changes (calls_of mutating evs)).
Proof.
  intros [-> | ->]; cbn [String.eqb Ascii.eqb Bool.eqb read_local].
  - eapply (post_bind _ _
              (fun r evs =>
                 (calls_of mutating evs = [] /\ exists e, r = Raise e)
                 \/ exists tag, calls_of mutating evs = [name_tag_call instance_id tag])).
    + eapply (post_bind _ _ (fun _ evs => calls_of mutating evs = []));
        [by apply fetch_ip_from_ec2_quiet | | by intros e evs ->; left; eauto].
      intros ip evs1 H1. cbn beta.
      eapply post_bind; [apply update_name_tag_run | |].
      * intros [] evs2 (label & _ & ->). apply post_ret. right. exists (PStr label).
        by rewrite app_nil_r, calls_of_app, H1.
      * intros e evs2 (label & _ & ->). right. exists (PStr label).
        by rewrite calls_of_app, H1.
    + intros ip evs1 [[_ [e [=]]] | [tag Htag]]. cbn beta. rewrite bind_ret.
      eapply post_weaken; [apply update_record_run |].
      intros r evs2 ->. rewrite calls_of_app, Htag. right. right. left.
      by exists instance_id, tag, zone_id, ip, hostname.
    + intros e evs1 [[-> _] | [tag ->]]; [by left |]. right. left. by exists instance_id, tag.
  - apply (post_bind_quiet _ _ _ _ message_changes_stable);
      [by apply fetch_ip_from_route53_quiet | intros ip; cbn beta].
    rewrite bind_ret. eapply post_weaken; [apply update_record_run |].
    intros r evs ->. right. right. right. by exists zone_id, ip, hostname.
Qed.

Lemma process_message_changes aws environ (message : pyval) :
  post (process_message aws environ message)
    (fun _ evs => message_changes (calls_of mutating evs)).
Proof.
  pose proof message_changes_stable as Hst.
  unfold process_message.
  apply (post_bind_quiet _ _ _ _ Hst); [by apply post_lift | intros has_transition; cbn beta].
  destruct has_transition; cbn [negb].
  2: { repeat (apply (post_bind_quiet _ _ _ _ Hst);
                 [first [by apply post_lift | by apply post_log] | intros ?; cbn beta]).
       apply post_ret. by left. }
  apply (post_bind_quiet _ _ _ _ Hst); [by apply post_lift | intros transition; cbn beta].
  apply (post_bind_quiet _ _ _ _ Hst); [by apply post_log | intros _; cbn beta].
  apply (post_bind_quiet_with mutating _ _ _ _ Hst (select_operation_values mutating message)).
  intros operation Hop. cbn beta.
  apply (post_bind_quiet _ _ _ _ Hst); [by apply post_lift | intros asg_name; cbn beta].
  apply (post_bind_quiet _ _ _ _ Hst); [by apply post_lift | intros instance_id; cbn beta].
  apply (post_bind_quiet _ _ _ _ Hst);
    [by apply fetch_tag_metadata_quiet | intros metadata; cbn beta].
  apply (post_bind_quiet _ _ _ _ Hst);
    [unfold unpack2; repeat quiet_step | intros pattern_zone; cbn beta zeta].
  apply (post_bind_quiet _ _ _ _ Hst);
    [by apply build_hostname_quiet | intros hostname; cbn beta].
  destruct (Hop operation eq_refl) as [-> | Hknown].
  { cbn [read_local]. apply post_raise. by left. }
  assert (exists op, operation = Some op /\ (op = "UPSERT" \/ op = "DELETE")) as (op & -> & Hcase).
  { destruct Hknown as [-> | ->]; eauto. }
  cbn [read_local]. rewrite bind_ret.
  by apply process_message_tail_changes.
Qed.

(** X6. Whatever the message and whatever the clients answer, the
    calls of [process_message] that change something are one of:
    none; the name tag of an instance; the name tag and then one UPSERT;
    one DELETE.  So a message makes at most one DNS change, a tag is
    only written on the way to an UPSERT and before it, and a DELETE
    comes with no tag update. *)
Theorem process_message_change_shapes aws environ (message : pyval) (t : trace) :
  exists r evs,
    process_message aws environ message t = (r, t ++ evs)
    /\ message_changes (calls_of mutating evs).
Proof. apply process_message_changes. Qed.

(** ** What a batch does *)

Lemma completes_last_stable :
  prefix_stable ["complete_lifecycle_action"]
    (fun (_ : result unit) evs => completes_last evs).
Proof.
  split.
  - intros e evs H. by left.
  - intros r evs1 evs2 H1 [H2 | (before & hook & asg & i & tok & after & -> & Hb & Ha)].
    + left. by rewrite calls_of_app, H1, H2.
    + right. exists (evs1 ++ before), hook, asg, i, tok, after.
      rewrite <- app_assoc. split; [done |]. split; [| done].
      by rewrite calls_of_app, H1, Hb.
Qed.

Lemma finish_asg_action_completes_last aws json_loads (record : option pyval) :
  post (finish_asg_action aws json_loads record) (fun _ evs => completes_last evs).
Proof.
  pose proof completes_last_stable as Hst.
  unfold finish_asg_action, sns_message, loads.
  apply (post_bind_quiet _ _ _ _ Hst); [by apply post_log | intros _; cbn beta].
  apply (post_bind_quiet _ _ _ _ Hst); [by repeat quiet_step | intros last_record; cbn beta].
  apply (post_bind_quiet _ _ _ _ Hst); [by repeat quiet_step | intros payload; cbn beta].
  apply (post_bind_quiet _ _ _ _ Hst); [by repeat quiet_step | intros message; cbn beta].
  apply (post_bind_quiet _ _ _ _ Hst); [by apply post_lift | intros has_hook; cbn beta].
  apply (post_bind_quiet _ _ _ _ Hst); [by repeat quiet_step | intros has_both; cbn beta].
  destruct has_both; [| apply post_log; by left].
  apply (post_bind_quiet _ _ _ _ Hst); [by apply post_lift | intros hook; cbn beta].
  apply (post_bind_quiet _ _ _ _ Hst); [by apply post_lift | intros asg; cbn beta].
  apply (post_bind_quiet _ _ _ _ Hst); [by apply post_lift | intros instance_id; cbn beta].
  apply (post_bind_quiet _ _ _ _ Hst); [by apply post_lift | intros token; cbn beta].
  eapply (post_bind _ _ (fun _ evs => evs = [completion hook asg instance_id token])).
  - apply post_call. by intros r.
  - intros response evs ->. apply post_log. right.
    by exists [], hook, asg, instance_id, token, [Log INFO "ASG action complete: %s" [response]].
  - intros e evs ->. right. by exists [], hook, asg, instance_id, token, [].
Qed.

(** X9. Whatever the batch and whatever the clients answer,
    [lambda_handler] completes at most one lifecycle action, and when
    it does, the completion is its last call of a client. *)
Theorem lambda_handler_completes_last aws json_loads json_dumps environ
    (event context : pyval) (t : trace) :
  exists r evs,
    lambda_handler aws json_loads json_dumps environ event context t = (r, t ++ evs)
    /\ completes_last evs.
Proof.
  pose proof completes_last_stable as Hst.
  apply (post_bind_quiet _ _ _ _ Hst); [by apply post_log | intros _; cbn beta].
  apply (post_bind_quiet _ _ _ _ Hst); [by apply post_lift | intros records; cbn beta].
  apply (post_bind_quiet _ _ _ _ Hst); [by apply post_lift | intros items; cbn beta].
  apply (post_bind_quiet _ _ _ _ Hst);
    [apply for_records_no_completion | intros record; cbn beta].
  apply finish_asg_action_completes_last.
Qed.

Lemma bind_lift_raise {A B} (e : exn) (k : A -> M B) : bind (lift (Raise e)) k = raise e.
Proof. reflexivity. Qed.

Lemma finish_asg_action_quiet aws json_loads methods (record : option pyval) :
  existsb (String.eqb "complete_lifecycle_action") methods = false ->
  quiet methods (finish_asg_action aws json_loads record).
Proof.
  intros H. unfold finish_asg_action, sns_message, loads. repeat quiet_step.
Qed.

Lemma process_record_changes aws json_loads environ (record : pyval) :
  post (process_record aws json_loads environ record)
    (fun _ evs => message_changes (calls_of mutating evs)).
Proof.
  pose proof message_changes_stable as Hst.
  unfold process_record, sns_message, loads.
  apply (post_bind_quiet _ _ _ _ Hst); [by repeat quiet_step | intros payload; cbn beta].
  apply (post_bind_quiet _ _ _ _ Hst); [by repeat quiet_step | intros message; cbn beta].
  apply process_message_changes.
Qed.

Lemma for_records_changes aws json_loads environ (items : list pyval) (record : option pyval) :
  post (for_records aws json_loads environ items record)
    (fun _ evs => batch_changes (length items) (calls_of mutating evs)).
Proof.
  revert record. induction items as [|r rest IH]; intros record; cbn [for_records].
  - apply post_ret. by exists [].
  - eapply post_bind; [apply process_record_changes | |].
    + intros [] evs1 H1. eapply post_weaken; [apply IH |].
      intros r2 evs2 (groups & Hg & Hall & Hlen).
      exists (calls_of mutating evs1 :: groups). rewrite calls_of_app, Hg.
      split; [done |]. split; [by constructor |]. cbn [length]. lia.
    + intros e evs1 H1. exists [calls_of mutating evs1]. cbn [concat].
      rewrite app_nil_r. split; [done |]. split; [| cbn [length]; lia].
      constructor; [exact H1 | constructor].
Qed.

Lemma batch_changes_stable n :
  prefix_stable mutating (fun (_ : result unit) evs => batch_changes n (calls_of mutating evs)).
Proof.
  split.
  - intros e evs ->. exists []. split; [done |]. split; [done |]. cbn. lia.
  - intros r evs1 evs2 H1 H2. by rewrite calls_of_app, H1.
Qed.

(** X11. Whatever the batch and whatever the clients answer, the
    calls of [lambda_handler] that change something are, message by
    message and for at most as many messages as the batch has records,
    of the shapes of a single message: nothing, a name tag, a name tag
    and then an UPSERT, or a DELETE.  Every DNS change is one A record
    with TTL 3 and action UPSERT or DELETE, and every UPSERT comes
    right after the name tag of that message. *)
Theorem lambda_handler_change_shapes aws json_loads json_dumps environ
    (event context : pyval) (t : trace) :
  exists r evs,
    lambda_handler aws json_loads json_dumps environ event context t = (r, t ++ evs)
    /\ batch_changes (batch_size event) (calls_of mutating evs).
Proof.
  pose proof (batch_changes_stable (batch_size event)) as Hst.
  apply (post_bind_quiet _ _ _ _ Hst); [by apply post_log | intros _; cbn beta].
  unfold batch_size in *.
  destruct (getitem event "Records") as [records|e].
  2: { rewrite bind_lift_raise. apply post_raise. by apply Hst. }
  rewrite bind_lift_ok.
  destruct (py_iter records) as [items|e].
  2: { rewrite bind_lift_raise. apply post_raise. by apply Hst. }
  rewrite bind_lift_ok.
  eapply post_bind; [apply for_records_changes | |].
  - intros record evs1 H1. eapply post_weaken;
      [by apply (finish_asg_action_quiet aws json_loads mutating) |].
    intros r evs2 H2. cbn beta. by rewrite calls_of_app, H2, app_nil_r.
  - by intros e evs1 H1.
Qed.

(** X10. A record whose processing raises ends the batch there:
    [lambda_handler] ends in that exception with the trace of that
    record's processing, whatever records come after it in the batch,
    and without a lifecycle completion. *)
Theorem failing_record_ends_batch aws json_loads json_dumps environ
    (event context records record : pyval) (before after : list pyval)
    (last_before : option pyval) (e : exn) (t t1 t2 : trace) :
  getitem event "Records" = Ok records ->
  py_iter records = Ok (before ++ record :: after) ->
  for_records aws json_loads environ before None
    (t ++ [Log INFO ("Processing SNS event: " +:+ json_dumps event) []])
  = (Ok last_before, t1) ->
  process_record aws json_loads environ record t1 = (Raise e, t2) ->
  lambda_handler aws json_loads json_dumps environ event context t = (Raise e, t2)
  /\ exists evs, t2 = t ++ evs /\ calls_of ["complete_lifecycle_action"] evs = [].
Proof.
  intros Hrec Hiter Hbefore Hrecord.
  assert (lambda_handler aws json_loads json_dumps environ event context t = (Raise e, t2)) as Hrun.
  { unfold lambda_handler, bind at 1, log at 1.
    rewrite Hrec, bind_lift_ok, Hiter, bind_lift_ok. unfold bind at 1.
    rewrite for_records_app. unfold bind at 1. rewrite Hbefore.
    cbn [for_records]. unfold bind at 1. by rewrite Hrecord. }
  split; [done |].
  destruct (for_records_no_completion aws json_loads environ before None
              (t ++ [Log INFO ("Processing SNS event: " +:+ json_dumps event) []]))
    as (r1 & evs1 & Hrun1 & Hq1).
  destruct (process_record_no_completion aws json_loads environ record t1)
    as (r2 & evs2 & Hrun2 & Hq2).
  rewrite Hbefore in Hrun1. rewrite Hrecord in Hrun2.
  injection Hrun1 as _ ->. injection Hrun2 as _ ->.
  exists ([Log INFO ("Processing SNS event: " +:+ json_dumps event) []] ++ evs1 ++ evs2).
  split; [by rewrite <- !app_assoc |].
  rewrite !calls_of_app, Hq1, Hq2. reflexivity.
Qed.

Lemma failing_record_ends_batch_witness :
  fst (lambda_handler (Demo.aws (Demo.asg1 "web.example.com"))
         (Demo.json_loads Demo.payloads) Demo.json_dumps ∅
         (Demo.batch ([Demo.sns_record "test"]
                      ++ Demo.sns_record "launching" :: [Demo.sns_record "terminating"]))
         PNone [])
  = Raise (SystemExit 1).
Proof.
  refine (f_equal fst
            (proj1 (failing_record_ends_batch
                      (Demo.aws (Demo.asg1 "web.example.com"))
                      (Demo.json_loads Demo.payloads) Demo.json_dumps ∅
                      (Demo.batch ([Demo.sns_record "test"]
                                   ++ Demo.sns_record "launching"
                                      :: [Demo.sns_record "terminating"]))
                      PNone
                      (PList ([Demo.sns_record "test"]
                              ++ Demo.sns_record "launching"
                                 :: [Demo.sns_record "terminating"]))
                      (Demo.sns_record "launching")
                      [Demo.sns_record "test"] [Demo.sns_record "terminating"]
                      _ (SystemExit 1) [] _ _ eq_refl eq_refl _ _))).
  - vm_compute. reflexivity.
  - vm_compute. reflexivity.
Defined.

Lemma informational_message_run aws environ (d : list (string * pyval)) (t : trace) :
  dict_get "LifecycleTransition" d = None ->
  process_message aws environ (PDict d) t
  = match dict_get "Event" d with
    | Some ev => (Ok tt, t ++ [Log INFO "Processing %s event" [ev]])
    | None => (Raise (KeyError (PStr "Event")), t)
    end.
Proof.
  intros H. unfold process_message, bind, lift. rewrite py_in_dict, H. cbn.
  by destruct (dict_get "Event" d).
Qed.

Lemma process_record_informational aws json_loads environ (record : pyval) :
  informational json_loads record ->
  quiet all_methods (process_record aws json_loads environ record).
Proof.
  intros (m & (sns & payload & Hsns & Hpayload & Hloads) & Hnone) t.
  unfold process_record, sns_message, loads, bind at 1 2, lift at 1 2.
  rewrite Hsns, Hpayload. unfold bind at 1, lift at 1. rewrite Hloads.
  rewrite (informational_message_run aws environ m t Hnone).
  destruct (dict_get "Event" m); [by eexists _, [_] | exists (Raise (KeyError (PStr "Event"))), []].
  by rewrite app_nil_r.
Qed.

Lemma calls_of_nil_incl (methods methods' : list string) (evs : list event) :
  (forall m, In m methods -> In m methods') ->
  calls_of methods' evs = [] -> calls_of methods evs = [].
Proof.
  intros Hincl. unfold calls_of. induction evs as [|e evs IH]; [done |].
  cbn [List.filter]. destruct (is_call_of methods e) eqn:He; [| by destruct (is_call_of methods' e)].
  assert (is_call_of methods' e = true) as ->; [| done].
  destruct e as [lvl msg args | client m kwargs]; [done |]. cbn [is_call_of] in *.
  apply existsb_exists in He as (x & Hx & Heq). apply existsb_exists.
  exists x. split; [by apply Hincl | done].
Qed.

Lemma for_records_informational aws json_loads environ (items : list pyval)
    (record : option pyval) :
  Forall (informational json_loads) items ->
  quiet all_methods (for_records aws json_loads environ items record).
Proof.
  intros Hall. revert record.
  induction Hall as [|r rest Hr Hrest IH]; intros record; cbn [for_records].
  - by apply post_ret.
  - apply quiet_bind; [by apply process_record_informational | intros _; apply IH].
Qed.

(** X12. A batch in which every record's message is a JSON object
    without [LifecycleTransition] makes no call to EC2, to Route53 or
    to the describe methods of Auto Scaling, whatever else the messages
    hold: the only client call such a batch can make is the lifecycle
    completion at its end. *)
Theorem informational_batch_calls_nothing aws json_loads json_dumps environ
    (event context records : pyval) (items : list pyval) (t : trace) :
  getitem event "Records" = Ok records ->
  py_iter records = Ok items ->
  Forall (informational json_loads) items ->
  exists r evs,
    lambda_handler aws json_loads json_dumps environ event context t = (r, t ++ evs)
    /\ calls_of ["describe_instances"; "list_resource_record_sets"; "describe_tags";
                 "describe_auto_scaling_groups"; "create_tags";
                 "change_resource_record_sets"] evs = [].
Proof.
  intros Hrec Hiter Hall.
  set (methods := ["describe_instances"; "list_resource_record_sets"; "describe_tags";
                   "describe_auto_scaling_groups"; "create_tags";
                   "change_resource_record_sets"]).
  enough (quiet methods (lambda_handler aws json_loads json_dumps environ event context))
    as Hq by apply Hq.
  unfold lambda_handler.
  apply quiet_bind; [by apply post_log | intros _].
  rewrite Hrec, bind_lift_ok, Hiter, bind_lift_ok.
  apply quiet_bind; [| intros record; by apply finish_asg_action_quiet].
  eapply post_weaken; [by apply (for_records_informational aws json_loads environ items None) |].
  intros r evs H. cbn beta. revert H. apply calls_of_nil_incl.
  intros m Hm. cbn in *. tauto.
Qed.

Lemma informational_batch_calls_nothing_witness :
  exists r evs,
    lambda_handler (Demo.aws (Demo.asg1 "web-#instanceid.example.com"))
      (Demo.json_loads Demo.payloads) Demo.json_dumps ∅
      (Demo.batch [Demo.sns_record "test"; Demo.sns_record "hook"; Demo.sns_record "empty"])
      PNone []
    = (r, [] ++ evs)
    /\ calls_of ["describe_instances"; "list_resource_record_sets"; "describe_tags";
                 "describe_auto_scaling_groups"; "create_tags";
                 "change_resource_record_sets"] evs = [].
Proof.
  eapply informational_batch_calls_nothing; [reflexivity | reflexivity |].
  repeat constructor.
  - exists Demo.test_notification. split; [by apply demo_message_of | done].
  - exists Demo.hook_notification. split; [by apply demo_message_of | done].
  - exists []. split; [by apply demo_message_of | done].
Defined.

(** ** A lifecycle message step by step *)

Lemma select_operation_run (d : list (string * pyval)) (v : pyval) :
  dict_get "LifecycleTransition" d = Some v ->
  post (select_operation (PDict d))
    (fun r evs => calls_of all_methods evs = [] /\ r = Ok (operation_of v)).
Proof.
  intros H. unfold select_operation, operation_of. cbn [getitem]. rewrite H, bind_lift_ok.
  destruct (eq_str v LAUNCHING); [by apply post_ret |].
  rewrite bind_lift_ok.
  destruct (eq_str v TERMINATING).
  { rewrite bind_ret. by apply post_ret. }
  rewrite bind_lift_ok, bind_ret. cbn [orb].
  destruct (eq_str v LAUNCH_ERROR); [by apply post_ret |].
  rewrite bind_lift_ok. intros t.
  by exists (Ok None), [Log ERROR "Encountered unknown event type: %s" [v]].
Qed.

Lemma process_message_steps aws environ (d : list (string * pyval))
    (v asg_name instance_id : pyval) (t : trace) :
  dict_get "LifecycleTransition" d = Some v ->
  dict_get "AutoScalingGroupName" d = Some asg_name ->
  dict_get "EC2InstanceId" d = Some instance_id ->
  process_message aws environ (PDict d) t
  = (log INFO "Processing %s event" [v] ;;
     operation <- select_operation (PDict d) ;;
     after_operation aws environ operation asg_name instance_id)%py t.
Proof.
  intros Hv Hasg Hid. unfold process_message, after_operation.
  rewrite py_in_dict, Hv, bind_lift_ok. cbn [negb getitem]. rewrite Hv, Hasg, Hid.
  reflexivity.
Qed.

(** A message with the three fields runs [after_operation] after
    events without a call. *)
Lemma process_message_from_metadata aws environ (d : list (string * pyval))
    (v asg_name instance_id : pyval) (Q : result unit -> list event -> Prop) :
  dict_get "LifecycleTransition" d = Some v ->
  dict_get "AutoScalingGroupName" d = Some asg_name ->
  dict_get "EC2InstanceId" d = Some instance_id ->
  (forall r evs1 evs2, calls_of all_methods evs1 = [] -> Q r evs2 -> Q r (evs1 ++ evs2)) ->
  post (after_operation aws environ (operation_of v) asg_name instance_id) Q ->
  forall t, exists r evs, process_message aws environ (PDict d) t = (r, t ++ evs) /\ Q r evs.
Proof.
  intros Hv Hasg Hid Hpre Hafter t. rewrite (process_message_steps _ _ _ _ _ _ _ Hv Hasg Hid).
  revert t. change (post (log INFO "Processing %s event" [v] ;;
                          operation <- select_operation (PDict d) ;;
                          after_operation aws environ operation asg_name instance_id)%py Q).
  eapply (post_bind _ _ (fun r evs => calls_of all_methods evs = [] /\ r = Ok tt));
    [by apply post_log | | by intros e evs [_ ?]].
  intros [] evs1 [H1 _]. cbn beta.
  eapply post_bind; [apply (select_operation_run d v Hv) | | by intros e evs [_ ?]].
  intros operation evs2 [H2 [= ->]]. cbn beta.
  eapply post_weaken; [exact Hafter |].
  intros r evs3 H3. cbn beta. by apply Hpre; [| apply Hpre].
Qed.

(** A step that is known to succeed, in front of the rest. *)
Lemma post_bind_ok methods {A B} (c : M A) (k : A -> M B) (a0 : A)
    (Q : result B -> list event -> Prop) :
  post c (fun r evs => calls_of methods evs = [] /\ r = Ok a0) ->
  (forall r evs1 evs2, calls_of methods evs1 = [] -> Q r evs2 -> Q r (evs1 ++ evs2)) ->
  post (k a0) Q ->
  post (bind c k) Q.
Proof.
  intros Hc Hpre Hk. eapply post_bind; [exact Hc | | by intros e evs [_ ?]].
  intros a evs1 [H1 [= ->]]. eapply post_weaken; [exact Hk |].
  intros r evs2 H2. by apply Hpre.
Qed.

Lemma calls_of_incl_prefix (methods methods' : list string)
    {A} (Q : result A -> list event -> Prop) :
  (forall m, In m methods -> In m methods') ->
  (forall r evs1 evs2, calls_of methods evs1 = [] -> Q r evs2 -> Q r (evs1 ++ evs2)) ->
  forall r evs1 evs2, calls_of methods' evs1 = [] -> Q r evs2 -> Q r (evs1 ++ evs2).
Proof.
  intros Hincl Hpre r evs1 evs2 H1 H2. apply Hpre; [| done].
  by apply (calls_of_nil_incl methods methods').
Qed.

(** X13. For a lifecycle message (any transition) of a group that has
    no hostname tag, [process_message] raises IndexError at the lookup
    of the first tag: the only client call made for the message is
    [describe_tags]. *)
Theorem untagged_group_raises aws environ (d : list (string * pyval))
    (v asg_name instance_id response : pyval) (t : trace) :
  dict_get "LifecycleTransition" d = Some v ->
  dict_get "AutoScalingGroupName" d = Some asg_name ->
  dict_get "EC2InstanceId" d = Some instance_id ->
  (forall t0,
      aws t0 "autoscaling" "describe_tags"
        [("Filters",
          PList [PDict [("Name", PStr "auto-scaling-group"); ("Values", PList [asg_name])];
                 PDict [("Name", PStr "key"); ("Values", PList [PStr "asg:hostname_pattern"])]]);
         ("MaxRecords", PInt 1)] = Ok response) ->
  getitem response "Tags" = Ok (PList []) ->
  exists evs,
    process_message aws environ (PDict d) t = (Raise IndexError, t ++ evs)
    /\ calls_of all_methods evs = [describe_tags_call asg_name].
Proof.
  intros Hv Hasg Hid Haws Htags.
  destruct (process_message_from_metadata aws environ d v asg_name instance_id
              (fun r evs => r = Raise IndexError
                            /\ calls_of all_methods evs = [describe_tags_call asg_name])
              Hv Hasg Hid) with (t := t) as (r & evs & Hrun & -> & Hcalls).
  - intros r evs1 evs2 H1 [-> H2]. by rewrite calls_of_app, H1.
  - unfold after_operation.
    eapply (post_bind _ _ (fun r evs => r = Raise IndexError
                                        /\ calls_of all_methods evs = [describe_tags_call asg_name])).
    + intros t0. unfold fetch_tag_metadata, bind, log, call, lift, HOSTNAME_TAG_NAME.
      rewrite Haws, Htags. cbn [getitem0]. eexists _, [_; _].
      split; [by rewrite <- app_assoc | done].
    + by intros a evs [? _].
    + by intros e evs [[= ->] ?].
  - by exists evs.
Qed.

Lemma untagged_group_raises_witness :
  exists evs,
    process_message (Demo.aws Demo.untagged) ∅ (PDict Demo.terminating) []
    = (Raise IndexError, [] ++ evs)
    /\ calls_of all_methods evs = [describe_tags_call (PStr "asg1")].
Proof.
  eapply (untagged_group_raises (Demo.aws Demo.untagged) ∅ Demo.terminating);
    [reflexivity | reflexivity | reflexivity | intros t0; reflexivity | reflexivity].
Defined.

(** X4. For a lifecycle message of a group whose hostname tag value is
    a string that is not a pattern, one [@] and a zone id (it has no
    [@], or more than one), [process_message] raises ValueError when it
    takes the value apart: the only client call made for the message is
    [describe_tags]. *)
Theorem malformed_tag_raises aws environ (d : list (string * pyval))
    (v asg_name instance_id response tags tag : pyval) (tag_value : string) (t : trace) :
  dict_get "LifecycleTransition" d = Some v ->
  dict_get "AutoScalingGroupName" d = Some asg_name ->
  dict_get "EC2InstanceId" d = Some instance_id ->
  (forall t0,
      aws t0 "autoscaling" "describe_tags"
        [("Filters",
          PList [PDict [("Name", PStr "auto-scaling-group"); ("Values", PList [asg_name])];
                 PDict [("Name", PStr "key"); ("Values", PList [PStr "asg:hostname_pattern"])]]);
         ("MaxRecords", PInt 1)] = Ok response) ->
  getitem response "Tags" = Ok tags ->
  getitem0 tags = Ok tag ->
  getitem tag "Value" = Ok (PStr tag_value) ->
  ~ (exists hostname_pattern zone_id : string,
        tag_value = hostname_pattern +:+ "@" +:+ zone_id
        /\ PyString.contains "@" hostname_pattern = false
        /\ PyString.contains "@" zone_id = false) ->
  exists evs,
    process_message aws environ (PDict d) t = (Raise ValueError, t ++ evs)
    /\ calls_of all_methods evs = [describe_tags_call asg_name].
Proof.
  intros Hv Hasg Hid Haws Htags Htag Hvalue Hshape.
  destruct (process_message_from_metadata aws environ d v asg_name instance_id
              (fun r evs => r = Raise ValueError
                            /\ calls_of all_methods evs = [describe_tags_call asg_name])
              Hv Hasg Hid) with (t := t) as (r & evs & Hrun & -> & Hcalls).
  - intros r evs1 evs2 H1 [-> H2]. by rewrite calls_of_app, H1.
  - unfold after_operation.
    eapply (post_bind _ _ (fun r evs => r = PyString.split "@" tag_value
                                        /\ calls_of all_methods evs = [describe_tags_call asg_name])).
    + intros t0. unfold fetch_tag_metadata, bind, log, call, lift, split_at, HOSTNAME_TAG_NAME.
      rewrite Haws, Htags, Htag, Hvalue. eexists _, [_; _; _].
      split; [by rewrite <- !app_assoc | done].
    + intros metadata evs1 [Hsplit H1].
      assert (unpack2 metadata = raise ValueError) as ->.
      { destruct metadata as [|p [|z [|? ?]]]; try done.
        destruct Hshape. exists p, z. by apply (split_char_two "@"). }
      apply post_raise. by rewrite app_nil_r.
    + intros e evs1 [Hsplit _]. unfold PyString.split in Hsplit.
      by destruct (PyString.split_go "@" 0 tag_value).
  - by exists evs.
Qed.

Lemma malformed_tag_raises_witness :
  exists evs,
    process_message (Demo.aws Cases.zoneless) ∅ (PDict Demo.launching) []
    = (Raise ValueError, [] ++ evs)
    /\ calls_of all_methods evs = [describe_tags_call (PStr "asg1")].
Proof.
  eapply (malformed_tag_raises (Demo.aws Cases.zoneless) ∅ Demo.launching
            _ _ _ _ _ _ "web-#instanceid.example.com");
    [reflexivity | reflexivity | reflexivity | intros t0; reflexivity
    | reflexivity | reflexivity | reflexivity |].
  intros (p & z & Hsplit & Hp & Hz).
  assert (PyString.contains "@" "web-#instanceid.example.com" = true) as Hc;
    [| vm_compute in Hc; discriminate Hc].
  apply contains_spec. exists p, z. exact Hsplit.
Defined.

Lemma operation_of_known (tr op : string) :
  (tr = LAUNCHING /\ op = "UPSERT")
  \/ ((tr = TERMINATING \/ tr = LAUNCH_ERROR) /\ op = "DELETE") ->
  operation_of (PStr tr) = Some op.
Proof. by intros [[-> ->] | [[-> | ->] ->]]. Qed.

(** [after_operation] up to the address lookup, when the tag and the
    hostname are known. *)
Lemma after_operation_to_lookup aws environ methods (op : string)
    (asg_name instance_id : pyval) (hostname_pattern zone_id hostname : string)
    (Q : result unit -> list event -> Prop) :
  existsb (String.eqb "describe_tags") methods = false ->
  existsb (String.eqb "describe_auto_scaling_groups") methods = false ->
  (forall t0, fst (fetch_tag_metadata aws asg_name t0) = Ok [hostname_pattern; zone_id]) ->
  (forall t0, fst (build_hostname aws hostname_pattern instance_id asg_name t0) = Ok hostname) ->
  (forall r evs1 evs2, calls_of methods evs1 = [] -> Q r evs2 -> Q r (evs1 ++ evs2)) ->
  post (ip <- (if String.eqb op "UPSERT" then
                 ip <- fetch_ip_from_ec2 aws environ instance_id ;;
                 update_name_tag aws instance_id hostname ;;
                 ret ip
               else
                 fetch_ip_from_route53 aws hostname zone_id) ;;
        update_record aws zone_id ip hostname op)%py Q ->
  post (after_operation aws environ (Some op) asg_name instance_id) Q.
Proof.
  intros Htags Hgroups Hmeta Hhost Hpre Hrest. unfold after_operation.
  apply (post_bind_ok methods _ _ [hostname_pattern; zone_id]);
    [by apply quiet_pin; [apply fetch_tag_metadata_quiet |] | exact Hpre |].
  cbn [unpack2]. rewrite bind_ret. cbn beta zeta. cbn [fst snd].
  apply (post_bind_ok methods _ _ hostname);
    [by apply quiet_pin; [apply build_hostname_quiet |] | exact Hpre |].
  cbn [read_local]. rewrite bind_ret. exact Hrest.
Qed.

(** X15. When the address lookup of a lifecycle message raises (the
    instance has no address of the selected kind, the zone returns no
    record set, ...), [process_message] ends in that exception and has
    changed nothing: no name tag and no DNS change.  The lookup is
    [fetch_ip_from_ec2] for LAUNCHING and [fetch_ip_from_route53] for
    TERMINATING and LAUNCH_ERROR. *)
Theorem lookup_failure_changes_nothing aws environ (d : list (string * pyval))
    (tr op : string) (asg_name instance_id : pyval)
    (hostname_pattern zone_id hostname : string) (e : exn) (t : trace) :
  dict_get "LifecycleTransition" d = Some (PStr tr) ->
  dict_get "AutoScalingGroupName" d = Some asg_name ->
  dict_get "EC2InstanceId" d = Some instance_id ->
  (tr = "autoscaling:EC2_INSTANCE_LAUNCHING" /\ op = "UPSERT")
  \/ ((tr = "autoscaling:EC2_INSTANCE_TERMINATING"
       \/ tr = "autoscaling:EC2_INSTANCE_LAUNCH_ERROR") /\ op = "DELETE") ->
  (forall t0, fst (fetch_tag_metadata aws asg_name t0) = Ok [hostname_pattern; zone_id]) ->
  (forall t0, fst (build_hostname aws hostname_pattern instance_id asg_name t0) = Ok hostname) ->
  (op = "UPSERT" -> forall t0, fst (fetch_ip_from_ec2 aws environ instance_id t0) = Raise e) ->
  (op = "DELETE" -> forall t0, fst (fetch_ip_from_route53 aws hostname zone_id t0) = Raise e) ->
  exists evs,
    process_message aws environ (PDict d) t = (Raise e, t ++ evs)
    /\ calls_of mutating evs = [].
Proof.
  intros Hv Hasg Hid Hcase Hmeta Hhost Hec2 Hdns.
  set (Q := fun (r : result unit) evs => r = Raise e /\ calls_of mutating evs = []).
  assert (forall r evs1 evs2, calls_of mutating evs1 = [] -> Q r evs2 -> Q r (evs1 ++ evs2))
    as Hpre.
  { intros r evs1 evs2 H1 [-> H2]. split; [done |]. by rewrite calls_of_app, H1. }
  destruct (process_message_from_metadata aws environ d (PStr tr) asg_name instance_id Q
              Hv Hasg Hid) with (t := t) as (r & evs & Hrun & -> & Hcalls).
  - apply (calls_of_incl_prefix mutating all_methods); [| exact Hpre].
    intros m Hm. cbn in *. tauto.
  - rewrite (operation_of_known tr op Hcase).
    apply (after_operation_to_lookup aws environ mutating op asg_name instance_id
             hostname_pattern zone_id hostname Q eq_refl eq_refl Hmeta Hhost Hpre).
    eapply (post_bind _ _ (fun r evs => calls_of mutating evs = [] /\ r = Raise e));
      [| by intros ip evs [_ ?] | by intros e' evs [? [= ->]]].
    destruct Hcase as [[_ ->] | [_ ->]]; cbn [String.eqb Ascii.eqb Bool.eqb].
    + eapply post_bind;
        [apply (quiet_pin mutating _ (Raise e));
         [by apply fetch_ip_from_ec2_quiet | by apply Hec2]
        | by intros ip evs [_ ?] | by intros e' evs [? [= ->]]].
    + apply (quiet_pin mutating _ (Raise e));
        [by apply fetch_ip_from_route53_quiet | by apply Hdns].
  - by exists evs.
Qed.

Lemma lookup_failure_changes_nothing_witness :
  exists evs,
    process_message (Demo.aws Cases.recordless) ∅ (PDict Demo.terminating) []
    = (Raise IndexError, [] ++ evs)
    /\ calls_of mutating evs = [].
Proof.
  eapply (lookup_failure_changes_nothing (Demo.aws Cases.recordless) ∅ Demo.terminating
            "autoscaling:EC2_INSTANCE_TERMINATING" "DELETE" (PStr "asg1") (PStr "i-1")
            "web-#instanceid.example.com" "ZONE1" "web-i-1.example.com" IndexError []).
  - reflexivity.
  - reflexivity.
  - reflexivity.
  - right. split; [by left | reflexivity].
  - intros t0. reflexivity.
  - intros t0. reflexivity.
  - discriminate.
  - intros _ t0. reflexivity.
Defined.

(** A launch with [use_public_ip] set, for an instance that has a
    private address only. *)
Example launch_without_public_address :
  let run := process_message (Demo.aws Cases.recordless) {[ "use_public_ip" := "true" ]}
               (PDict Demo.launching) [] in
  fst run = Raise (KeyError (PStr "PublicIpAddress"))
  /\ calls_of mutating (snd run) = [].
Proof. split; vm_compute; reflexivity. Qed.

(** X7. For a LAUNCHING message whose tag, hostname and instance
    address are found, [process_message] first sets the [Name] tag of
    the instance to the first label of the hostname and then upserts
    the A record of the hostname, with the address from EC2, in the
    zone of the tag; the UPSERT is only missing when the run raised
    right after the tag call.  Route53 is not read on this path. *)
Theorem launch_tags_then_upserts aws environ (d : list (string * pyval))
    (asg_name instance_id ip : pyval) (hostname_pattern zone_id hostname : string)
    (t : trace) :
  dict_get "LifecycleTransition" d = Some (PStr "autoscaling:EC2_INSTANCE_LAUNCHING") ->
  dict_get "AutoScalingGroupName" d = Some asg_name ->
  dict_get "EC2InstanceId" d = Some instance_id ->
  (forall t0, fst (fetch_tag_metadata aws asg_name t0) = Ok [hostname_pattern; zone_id]) ->
  (forall t0, fst (build_hostname aws hostname_pattern instance_id asg_name t0) = Ok hostname) ->
  (forall t0, fst (fetch_ip_from_ec2 aws environ instance_id t0) = Ok ip) ->
  exists r evs label,
    process_message aws environ (PDict d) t = (r, t ++ evs)
    /\ first_label hostname label
    /\ (calls_of ["create_tags"; "change_resource_record_sets"; "list_resource_record_sets"] evs
        = [name_tag_call instance_id (PStr label);
           dns_change_call zone_id ip hostname "UPSERT"]
        \/ (calls_of ["create_tags"; "change_resource_record_sets"; "list_resource_record_sets"]
              evs
            = [name_tag_call instance_id (PStr label)]
            /\ exists e, r = Raise e)).
Proof.
  intros Hv Hasg Hid Hmeta Hhost Hip.
  set (methods := ["create_tags"; "change_resource_record_sets"; "list_resource_record_sets"]).
  set (Q := fun (r : result unit) evs =>
              exists label,
                first_label hostname label
                /\ (calls_of methods evs
                    = [name_tag_call instance_id (PStr label);
                       dns_change_call zone_id ip hostname "UPSERT"]
                    \/ (calls_of methods evs = [name_tag_call instance_id (PStr label)]
                        /\ exists e, r = Raise e))).
  assert (forall r evs1 evs2, calls_of methods evs1 = [] -> Q r evs2 -> Q r (evs1 ++ evs2))
    as Hpre.
  { intros r evs1 evs2 H1 (label & Hlabel & H2). exists label. split; [done |].
    by rewrite calls_of_app, H1. }
  destruct (process_message_from_metadata aws environ d _ asg_name instance_id Q
              Hv Hasg Hid) with (t := t) as (r & evs & Hrun & label & Hlabel & Hcalls).
  - apply (calls_of_incl_prefix methods all_methods); [| exact Hpre].
    intros m Hm. cbn in *. tauto.
  - change (operation_of (PStr "autoscaling:EC2_INSTANCE_LAUNCHING")) with (Some "UPSERT").
    apply (after_operation_to_lookup aws environ methods "UPSERT" asg_name instance_id
             hostname_pattern zone_id hostname Q eq_refl eq_refl Hmeta Hhost Hpre).
    cbn [String.eqb Ascii.eqb Bool.eqb].
    eapply (post_bind _ _
              (fun r evs =>
                 exists label,
                   first_label hostname label
                   /\ calls_of methods evs = [name_tag_call instance_id (PStr label)]
                   /\ (r = Ok ip \/ exists e, r = Raise e))).
    + apply (post_bind_ok methods _ _ ip);
        [by apply quiet_pin; [apply fetch_ip_from_ec2_quiet |] | |].
      * intros r evs1 evs2 H1 (label & Hlabel & H2 & Hr). exists label.
        by rewrite calls_of_app, H1.
      * eapply post_bind; [apply update_name_tag_run | |].
        -- intros [] evs1 (label & Hlabel & ->). apply post_ret. exists label.
           rewrite app_nil_r. split; [done |]. split; [done | by left].
        -- intros e evs1 (label & Hlabel & ->). exists label.
           split; [done |]. split; [done | right; by exists e].
    + intros ip' evs1 (label & Hlabel & H1 & [[= ->] | [e [=]]]).
      eapply post_weaken; [apply update_record_run |].
      intros r evs2 ->. exists label. split; [done |]. left.
      by rewrite calls_of_app, H1.
    + intros e evs1 (label & Hlabel & H1 & _). exists label. split; [done |]. right.
      split; [done | by exists e].
  - by exists r, evs, label.
Qed.

Lemma launch_tags_then_upserts_witness :
  exists r evs label,
    process_message (Demo.aws (Demo.asg1 "web-#instanceid.example.com")) ∅
      (PDict Demo.launching) []
    = (r, [] ++ evs)
    /\ first_label "web-i-1.example.com" label
    /\ (calls_of ["create_tags"; "change_resource_record_sets"; "list_resource_record_sets"] evs
        = [name_tag_call (PStr "i-1") (PStr label);
           dns_change_call "ZONE1" (PStr "10.0.0.5") "web-i-1.example.com" "UPSERT"]
        \/ (calls_of ["create_tags"; "change_resource_record_sets"; "list_resource_record_sets"]
              evs
            = [name_tag_call (PStr "i-1") (PStr label)]
            /\ exists e, r = Raise e)).
Proof.
  eapply (launch_tags_then_upserts (Demo.aws (Demo.asg1 "web-#instanceid.example.com")) ∅
            Demo.launching (PStr "asg1") (PStr "i-1") (PStr "10.0.0.5")
            "web-#instanceid.example.com" "ZONE1" "web-i-1.example.com" []);
    [reflexivity | reflexivity | reflexivity
    | intros t0; reflexivity | intros t0; reflexivity | intros t0; reflexivity].
Defined.

(** X8. For a TERMINATING or LAUNCH_ERROR message whose tag and
    hostname are found and whose record is found in the zone,
    [process_message] makes one change: the DELETE of the A record of
    the hostname with the address read from Route53.  It writes no tag
    and does not ask EC2 for the instance. *)
Theorem termination_deletes_record aws environ (d : list (string * pyval)) (tr : string)
    (asg_name instance_id ip : pyval) (hostname_pattern zone_id hostname : string)
    (t : trace) :
  dict_get "LifecycleTransition" d = Some (PStr tr) ->
  tr = "autoscaling:EC2_INSTANCE_TERMINATING" \/ tr = "autoscaling:EC2_INSTANCE_LAUNCH_ERROR" ->
  dict_get "AutoScalingGroupName" d = Some asg_name ->
  dict_get "EC2InstanceId" d = Some instance_id ->
  (forall t0, fst (fetch_tag_metadata aws asg_name t0) = Ok [hostname_pattern; zone_id]) ->
  (forall t0, fst (build_hostname aws hostname_pattern instance_id asg_name t0) = Ok hostname) ->
  (forall t0, fst (fetch_ip_from_route53 aws hostname zone_id t0) = Ok ip) ->
  exists r evs,
    process_message aws environ (PDict d) t = (r, t ++ evs)
    /\ calls_of ["create_tags"; "change_resource_record_sets"; "describe_instances"] evs
       = [dns_change_call zone_id ip hostname "DELETE"].
Proof.
  intros Hv Htr Hasg Hid Hmeta Hhost Hip.
  set (methods := ["create_tags"; "change_resource_record_sets"; "describe_instances"]).
  set (Q := fun (r : result unit) evs =>
              calls_of methods evs = [dns_change_call zone_id ip hostname "DELETE"]).
  assert (forall r evs1 evs2, calls_of methods evs1 = [] -> Q r evs2 -> Q r (evs1 ++ evs2))
    as Hpre.
  { intros r evs1 evs2 H1 H2. unfold Q. by rewrite calls_of_app, H1. }
  apply (process_message_from_metadata aws environ d _ asg_name instance_id Q Hv Hasg Hid).
  - apply (calls_of_incl_prefix methods all_methods); [| exact Hpre].
    intros m Hm. cbn in *. tauto.
  - rewrite (operation_of_known tr "DELETE"); [| right; by split].
    apply (after_operation_to_lookup aws environ methods "DELETE" asg_name instance_id
             hostname_pattern zone_id hostname Q eq_refl eq_refl Hmeta Hhost Hpre).
    cbn [String.eqb Ascii.eqb Bool.eqb].
    apply (post_bind_ok methods _ _ ip);
      [by apply quiet_pin; [apply fetch_ip_from_route53_quiet |] | exact Hpre |].
    eapply post_weaken; [apply update_record_run |]. by intros r evs ->.
Qed.

Lemma termination_deletes_record_witness :
  exists r evs,
    process_message (Demo.aws (Demo.asg1 "web-#instanceid.example.com")) ∅
      (PDict Demo.terminating) []
    = (r, [] ++ evs)
    /\ calls_of ["create_tags"; "change_resource_record_sets"; "describe_instances"] evs
       = [dns_change_call "ZONE1" (PStr "10.0.0.5") "web-i-1.example.com" "DELETE"].
Proof.
  eapply (termination_deletes_record (Demo.aws (Demo.asg1 "web-#instanceid.example.com")) ∅
            Demo.terminating "autoscaling:EC2_INSTANCE_TERMINATING"
            (PStr "asg1") (PStr "i-1") (PStr "10.0.0.5")
            "web-#instanceid.example.com" "ZONE1" "web-i-1.example.com" []);
    [reflexivity | by left | reflexivity | reflexivity
    | intros t0; reflexivity | intros t0; reflexivity | intros t0; reflexivity].
Defined.

(** ** The operation of a transition, end to end *)

(** C3. For a message whose transition is LAUNCHING, [process_message]
    selects UPSERT; for TERMINATING and for LAUNCH_ERROR it selects
    DELETE.  The local variable [operation] gets that value, and a run
    makes no DNS change with another action; and when the tag, the
    hostname and the address are found (and, on a launch, the name tag
    is written), the run makes the DNS change of the hostname with that
    action. *)
Theorem transition_selects_operation aws environ (d : list (string * pyval)) (tr op : string) :
  dict_get "LifecycleTransition" d = Some (PStr tr) ->
  (tr = "autoscaling:EC2_INSTANCE_LAUNCHING" /\ op = "UPSERT")
  \/ ((tr = "autoscaling:EC2_INSTANCE_TERMINATING"
       \/ tr = "autoscaling:EC2_INSTANCE_LAUNCH_ERROR") /\ op = "DELETE") ->
  selects aws environ (PDict d) op
  /\ forall (asg_name instance_id ip : pyval) (hostname_pattern zone_id hostname : string)
            (t : trace),
      dict_get "AutoScalingGroupName" d = Some asg_name ->
      dict_get "EC2InstanceId" d = Some instance_id ->
      (forall t0, fst (fetch_tag_metadata aws asg_name t0) = Ok [hostname_pattern; zone_id]) ->
      (forall t0,
          fst (build_hostname aws hostname_pattern instance_id asg_name t0) = Ok hostname) ->
      (op = "UPSERT" ->
       (forall t0, fst (fetch_ip_from_ec2 aws environ instance_id t0) = Ok ip)
       /\ (forall t0, succeeds (fst (update_name_tag aws instance_id hostname t0)))) ->
      (op = "DELETE" ->
       forall t0, fst (fetch_ip_from_route53 aws hostname zone_id t0) = Ok ip) ->
      exists r evs,
        process_message aws environ (PDict d) t = (r, t ++ evs)
        /\ calls_of ["change_resource_record_sets"] evs
           = [dns_change_call zone_id ip hostname op]
        /\ dns_actions evs = [Ok (PStr op)].
Proof.
  intros Hv Hcase. split.
  { by apply (known_transition_selects aws environ d tr op). }
  intros asg_name instance_id ip hostname_pattern zone_id hostname t
    Hasg Hid Hmeta Hhost Hupsert Hdelete.
  set (methods := ["change_resource_record_sets"]).
  set (Q := fun (r : result unit) evs =>
              calls_of methods evs = [dns_change_call zone_id ip hostname op]).
  assert (forall r evs1 evs2, calls_of methods evs1 = [] -> Q r evs2 -> Q r (evs1 ++ evs2))
    as Hpre.
  { intros r evs1 evs2 H1 H2. unfold Q. by rewrite calls_of_app, H1. }
  destruct (process_message_from_metadata aws environ d (PStr tr) asg_name instance_id Q
              Hv Hasg Hid) with (t := t) as (r & evs & Hrun & Hcalls).
  - apply (calls_of_incl_prefix methods all_methods); [| exact Hpre].
    intros m Hm. cbn in *. tauto.
  - rewrite (operation_of_known tr op Hcase).
    apply (after_operation_to_lookup aws environ methods op asg_name instance_id
             hostname_pattern zone_id hostname Q eq_refl eq_refl Hmeta Hhost Hpre).
    apply (post_bind_ok methods _ _ ip); [| exact Hpre |].
    + destruct Hcase as [[_ ->] | [_ ->]]; cbn [String.eqb Ascii.eqb Bool.eqb].
      * destruct (Hupsert eq_refl) as [Hip Htag].
        apply quiet_pin.
        { repeat (quiet_step || (by apply fetch_ip_from_ec2_quiet)
                  || (by apply update_name_tag_quiet)). }
        intros t0. unfold bind. specialize (Hip t0).
        destruct (fetch_ip_from_ec2 aws environ instance_id t0) as [r1 t1].
        cbn [fst] in Hip. subst r1.
        destruct (Htag t1) as [a Ha].
        destruct (update_name_tag aws instance_id hostname t1) as [r2 t2].
        cbn [fst] in Ha. by subst r2.
      * apply quiet_pin; [by apply fetch_ip_from_route53_quiet | by apply Hdelete].
    + eapply post_weaken; [apply update_record_run |]. by intros r evs ->.
  - exists r, evs. split; [done |]. split; [exact Hcalls |].
    unfold dns_actions. fold methods. by rewrite Hcalls.
Qed.

Lemma transition_selects_operation_witness :
  (exists r evs,
      process_message (Demo.aws (Demo.asg1 "web-#instanceid.example.com")) ∅
        (PDict Demo.launching) []
      = (r, [] ++ evs)
      /\ calls_of ["change_resource_record_sets"] evs
         = [dns_change_call "ZONE1" (PStr "10.0.0.5") "web-i-1.example.com" "UPSERT"]
      /\ dns_actions evs = [Ok (PStr "UPSERT")])
  /\ (exists r evs,
         process_message (Demo.aws (Demo.asg1 "web-#instanceid.example.com")) ∅
           (PDict Demo.terminating) []
         = (r, [] ++ evs)
         /\ calls_of ["change_resource_record_sets"] evs
            = [dns_change_call "ZONE1" (PStr "10.0.0.5") "web-i-1.example.com" "DELETE"]
         /\ dns_actions evs = [Ok (PStr "DELETE")]).
Proof.
  split.
  - refine (proj2 (transition_selects_operation
                     (Demo.aws (Demo.asg1 "web-#instanceid.example.com")) ∅
                     Demo.launching "autoscaling:EC2_INSTANCE_LAUNCHING" "UPSERT"
                     eq_refl (or_introl (conj eq_refl eq_refl)))
              (PStr "asg1") (PStr "i-1") (PStr "10.0.0.5")
              "web-#instanceid.example.com" "ZONE1" "web-i-1.example.com" []
              eq_refl eq_refl (fun t0 => eq_refl) (fun t0 => eq_refl) _ _).
    + intros _. split; [intros t0; reflexivity |]. intros t0. by exists tt.
    + discriminate.
  - refine (proj2 (transition_selects_operation
                     (Demo.aws (Demo.asg1 "web-#instanceid.example.com")) ∅
                     Demo.terminating "autoscaling:EC2_INSTANCE_TERMINATING" "DELETE"
                     eq_refl (or_intror (conj (or_introl eq_refl) eq_refl)))
              (PStr "asg1") (PStr "i-1") (PStr "10.0.0.5")
              "web-#instanceid.example.com" "ZONE1" "web-i-1.example.com" []
              eq_refl eq_refl (fun t0 => eq_refl) (fun t0 => eq_refl) _ _).
    + discriminate.
    + intros _ t0. reflexivity.
Defined.
